(** * PersonaPlex RunPod handler: a shallow embedding of [rp_handler.py]

    The handler supervises one child server process: it spawns it, waits for
    its TCP port, reports the connection details, then polls the process and
    its port until the process exits.  Everything the handler does is a call
    into the operating system or the platform SDK, so the embedding is a
    state-and-exception monad over an explicit world:

    - the world answers every external call from a [script], a function
      from the number of the call to the answer the environment gives it
      (how long the call takes, which children exit meanwhile, whether the
      call raises, what [connect_ex] returns);
    - the state carries the module global [server_process], the clock, the
      table of [Popen] objects and the trace of the calls made so far;
    - the two [while] loops take fuel; [wait_for_server] computes its own
      from the timeout (and is proved never to exhaust it), the monitoring
      loop of [handler] takes it as an argument because it really can run
      forever.

    Time is kept in integer milliseconds and the clock never goes back;
    the [timeout] arguments are the source's seconds. *)

From Stdlib Require Import ZArith NArith List String Bool Lia DecimalString.
Import ListNotations.

Local Open Scope string_scope.
Local Open Scope Z_scope.

Set Warnings "-register-all,-notation-for-abbreviation".

(** ** Python values and exceptions *)

Inductive PyVal : Type :=
| VNone
| VStr (s : string)
| VInt (z : Z)
| VDict (d : list (string * PyVal)).

Definition PyDict : Type := list (string * PyVal).

(** [d.get(key)] on a dict: [None] when the key is absent. *)
Fixpoint dict_get (d : PyDict) (key : string) : option PyVal :=
  match d with
  | [] => None
  | (k, v) :: rest => if String.eqb k key then Some v else dict_get rest key
  end.

(** The exception classes the handler tells apart.  [socket.error] is an
    alias of [OSError]; [subprocess.TimeoutExpired], [KeyError] and
    [AttributeError] are subclasses of [Exception]; [BaseExceptionOnly]
    stands for [KeyboardInterrupt], [SystemExit] and the like, which
    [except Exception] does not catch. *)
Inductive PyExc : Type :=
| OSError (msg : string)
| TimeoutExpired (msg : string)
| KeyError (key : string)
| AttributeError (msg : string)
| OtherException (msg : string)
| BaseExceptionOnly (msg : string).

(** [isinstance(e, Exception)]. *)
Definition is_Exception (e : PyExc) : bool :=
  match e with
  | BaseExceptionOnly _ => false
  | _ => true
  end.

(** [isinstance(e, socket.error)]. *)
Definition is_socket_error (e : PyExc) : bool :=
  match e with
  | OSError _ => true
  | _ => false
  end.

(** [isinstance(e, subprocess.TimeoutExpired)]. *)
Definition is_TimeoutExpired (e : PyExc) : bool :=
  match e with
  | TimeoutExpired _ => true
  | _ => false
  end.

(** [str(e)]. *)
Definition exc_str (e : PyExc) : string :=
  match e with
  | OSError m | TimeoutExpired m | AttributeError m
  | OtherException m | BaseExceptionOnly m => m
  | KeyError k => "'" ++ k ++ "'"
  end.

(** [str(n)] for an integer. *)
Definition str_of_int (z : Z) : string :=
  NilZero.string_of_int (Z.to_int z).

(** ** The world *)

(** A [subprocess.Popen] object together with the child behind it:
    [exited] is the operating system's view (the exit status once the child
    has terminated), [returncode] is the attribute of the Python object,
    which only [poll()] and [wait()] set. *)
Record Popen : Type := mkPopen {
  args : list string;
  penv : list (string * string);
  exited : option Z;
  returncode : option Z
}.

(** What a connect attempt (lines 48-52) produced: the value of
    [connect_ex], or the exception raised while the socket was in use. *)
Inductive Attempt : Type :=
| Returned (code : Z)
| Raised (e : PyExc).

Inductive Event : Type :=
| EvPrint (parts : list PyVal)
| EvPopen (h : nat)
| EvPopenFailed (e : PyExc)
| EvConnect (host : string) (port : Z) (a : Attempt)
| EvSleep (secs : Z)
| EvPoll (h : nat) (rc : option Z)
| EvTerminate (h : nat)
| EvWait (h : nat) (timeout : Z) (rc : option Z)
| EvKill (h : nat)
| EvProgress (info : PyVal).

(** The external calls that can raise. *)
Inductive CallKind : Type :=
| KPopen | KConnect | KTerminate | KWait | KKill | KProgress.

(** The environment's answer to one external call. *)
Record Resp : Type := mkResp {
  r_elapsed : N;                       (* milliseconds the call takes *)
  r_exits : list (nat * Z);            (* children exiting meanwhile *)
  r_raise : CallKind -> option PyExc;  (* the exception it raises, if any *)
  r_connect : Z                        (* what connect_ex returns *)
}.

Record State : Type := mkState {
  server_process : option nat;   (* the module global, a handle *)
  now : Z;                       (* time.time(), in milliseconds *)
  calls : nat;                   (* external calls made so far *)
  procs : list Popen;            (* handle h is the h-th entry *)
  trace : list Event             (* newest first *)
}.

(** A fresh worker: [server_process = None], nothing spawned yet. *)
Definition initial_state (t0 : Z) : State :=
  mkState None t0 0 [] [].

(** Outcome of running a piece of the program: it returns, it raises, or
    the fuel of a loop ran out (the run is still going on). *)
Inductive Run (A : Type) : Type :=
| Ret (a : A) (st : State)
| Exc (e : PyExc) (st : State)
| Out (st : State).

Arguments Ret {A} a st.
Arguments Exc {A} e st.
Arguments Out {A} st.

Definition M (A : Type) : Type := State -> Run A.

Definition state_of {A} (r : Run A) : State :=
  match r with
  | Ret _ st | Exc _ st | Out st => st
  end.

Definition ret {A} (a : A) : M A := fun st => Ret a st.

Definition raise {A} (e : PyExc) : M A := fun st => Exc e st.

Definition bind {A B} (m : M A) (k : A -> M B) : M B :=
  fun st =>
    match m st with
    | Ret a st1 => k a st1
    | Exc e st1 => Exc e st1
    | Out st1 => Out st1
    end.

Notation "x <- m ;; k" := (bind m (fun x => k))
  (at level 61, m at next level, right associativity).
Notation "m ;; k" := (bind m (fun _ => k))
  (at level 61, right associativity).

(** [try: m  except Exception as e: h e]. *)
Definition try_except_Exception {A} (m : M A) (h : PyExc -> M A) : M A :=
  fun st =>
    match m st with
    | Exc e st1 => if is_Exception e then h e st1 else Exc e st1
    | r => r
    end.

(** [try: m  finally: c].  The block [c] runs however [m] ends; when [c]
    itself raises, its exception replaces the pending result of [m]. *)
Definition finally_ {A} (m : M A) (c : M unit) : M A :=
  fun st =>
    match m st with
    | Ret a st1 =>
        match c st1 with
        | Ret _ st2 => Ret a st2
        | Exc e st2 => Exc e st2
        | Out st2 => Out st2
        end
    | Exc e st1 =>
        match c st1 with
        | Ret _ st2 => Exc e st2
        | Exc e' st2 => Exc e' st2
        | Out st2 => Out st2
        end
    | Out st1 => Out st1
    end.

(** ** Children and the clock *)

Definition set_exited (c : Z) (p : Popen) : Popen :=
  match exited p with
  | Some _ => p
  | None => mkPopen (args p) (penv p) (Some c) (returncode p)
  end.

Fixpoint update_nth {A} (n : nat) (f : A -> A) (l : list A) : list A :=
  match l, n with
  | [], _ => []
  | x :: r, O => f x :: r
  | x :: r, S n' => x :: update_nth n' f r
  end.

(** The children that exit on their own while a call is in progress. *)
Fixpoint apply_exits (ex : list (nat * Z)) (ps : list Popen) : list Popen :=
  match ex with
  | [] => ps
  | (h, c) :: rest => apply_exits rest (update_nth h (set_exited c) ps)
  end.

Definition exit_status (ps : list Popen) (h : nat) : option Z :=
  match nth_error ps h with
  | Some p => exited p
  | None => None
  end.

Definition alive (ps : list Popen) : list Popen :=
  filter (fun p => match exited p with None => true | Some _ => false end) ps.

(** The values read from the environment when the module is loaded
    (lines 22-25: [PERSONAPLEX_PORT], [SSL_DIR], [HF_TOKEN],
    [CPU_OFFLOAD]) and [os.environ] itself. *)
Record Config : Type := mkConfig {
  personaplex_port : Z;
  ssl_dir : string;
  hf_token : string;
  cpu_offload : bool;
  os_environ : list (string * string)
}.

Section Handler.

(** What the environment does, call by call. *)
Variable script : nat -> Resp.

(** The module-level configuration (lines 22-25) and [os.environ]. *)
Variable cfg : Config.

Local Notation PERSONAPLEX_PORT := (personaplex_port cfg).
Local Notation SSL_DIR := (ssl_dir cfg).
Local Notation HF_TOKEN := (hf_token cfg).
Local Notation CPU_OFFLOAD := (cpu_offload cfg).
Local Notation environ := (os_environ cfg).

(** One external call goes by: [requested] milliseconds plus what the
    environment adds, and the children that exit meanwhile. *)
Definition step (requested : Z) (st : State) : State :=
  let r := script (calls st) in
  mkState (server_process st)
          (now st + requested + Z.of_N (r_elapsed r))
          (S (calls st))
          (apply_exits (r_exits r) (procs st))
          (trace st).

Definition record (e : Event) (st : State) : State :=
  mkState (server_process st) (now st) (calls st) (procs st) (e :: trace st).

(** The answer to the call now being made. *)
Definition answer (st : State) : Resp := script (calls st).

Definition print (parts : list PyVal) : M unit :=
  fun st => Ret tt (record (EvPrint parts) st).

(** [time.time()]. *)
Definition time_time : M Z := fun st => Ret (now st) st.

(** [time.sleep(secs)]: at least the requested time goes by. *)
Definition time_sleep (secs : Z) : M unit :=
  fun st => Ret tt (record (EvSleep secs) (step (1000 * secs) st)).

(** Lines 48-52 without the [return]: open a socket, set its timeout,
    [connect_ex].  Gives the code [connect_ex] returned. *)
Definition connect_attempt (host : string) (port : Z) : M Z :=
  fun st =>
    let r := answer st in
    match r_raise r KConnect with
    | Some e => Exc e (record (EvConnect host port (Raised e)) (step 0 st))
    | None =>
        Ret (r_connect r)
            (record (EvConnect host port (Returned (r_connect r))) (step 0 st))
    end.

(** [subprocess.Popen(cmd, env=env, ...)]. *)
Definition popen (cmd : list string) (env : list (string * string)) : M nat :=
  fun st =>
    let r := answer st in
    let st1 := step 0 st in
    match r_raise r KPopen with
    | Some e => Exc e (record (EvPopenFailed e) st1)
    | None =>
        let h := List.length (procs st1) in
        Ret h (record (EvPopen h)
                 (mkState (server_process st1) (now st1) (calls st1)
                          (procs st1 ++ [mkPopen cmd env None None])%list
                          (trace st1)))
    end.

Definition set_returncode (rc : option Z) (p : Popen) : Popen :=
  mkPopen (args p) (penv p) (exited p) rc.

(** [p.poll()]: the exit status if the child has terminated, else [None];
    the object remembers it in [returncode]. *)
Definition poll (h : nat) : M (option Z) :=
  fun st =>
    let st1 := step 0 st in
    let rc := exit_status (procs st1) h in
    Ret rc (record (EvPoll h rc)
              (mkState (server_process st1) (now st1) (calls st1)
                       (update_nth h (set_returncode rc) (procs st1))
                       (trace st1))).

(** [p.returncode]. *)
Definition get_returncode (h : nat) : M (option Z) :=
  fun st =>
    Ret (match nth_error (procs st) h with
         | Some p => returncode p
         | None => None
         end) st.

(** [p.terminate()]: ask the child to stop.  Returns at once; whether and
    when the child exits is the environment's business. *)
Definition terminate (h : nat) : M unit :=
  fun st =>
    let r := answer st in
    let st1 := record (EvTerminate h) (step 0 st) in
    match r_raise r KTerminate with
    | Some e => Exc e st1
    | None => Ret tt st1
    end.

(** [p.kill()]. *)
Definition kill (h : nat) : M unit :=
  fun st =>
    let r := answer st in
    let st1 := record (EvKill h) (step 0 st) in
    match r_raise r KKill with
    | Some e => Exc e st1
    | None => Ret tt st1
    end.

(** [p.wait(timeout=secs)]: returns the exit status when the child has
    exited by the end of the call, raises [TimeoutExpired] after [secs]
    seconds otherwise. *)
Definition wait (h : nat) (secs : Z) : M Z :=
  fun st =>
    let r := answer st in
    match r_raise r KWait with
    | Some e => Exc e (record (EvWait h secs None) (step 0 st))
    | None =>
        let st1 := step 0 st in
        match exit_status (procs st1) h with
        | Some c =>
            Ret c (record (EvWait h secs (Some c))
                     (mkState (server_process st1) (now st1) (calls st1)
                              (update_nth h (set_returncode (Some c)) (procs st1))
                              (trace st1)))
        | None =>
            Exc (TimeoutExpired "timed out")
                (record (EvWait h secs None) (step (1000 * secs) st))
        end
    end.

(** [runpod.serverless.progress_update(job, info)]. *)
Definition progress_update (job : PyDict) (info : PyVal) : M unit :=
  fun st =>
    let r := answer st in
    let st1 := record (EvProgress info) (step 0 st) in
    match r_raise r KProgress with
    | Some e => Exc e st1
    | None => Ret tt st1
    end.

(** [os.getenv(name, default)]. *)
Fixpoint getenv (env : list (string * string)) (name default : string) : string :=
  match env with
  | [] => default
  | (k, v) :: rest => if String.eqb k name then v else getenv rest name default
  end.

(** [env[name] = value]. *)
Fixpoint setenv (env : list (string * string)) (name value : string)
  : list (string * string) :=
  match env with
  | [] => [(name, value)]
  | (k, v) :: rest =>
      if String.eqb k name then (k, value) :: rest
      else (k, v) :: setenv rest name value
  end.

(** ** The program *)

Definition get_public_ip : string :=
  getenv environ "RUNPOD_PUBLIC_IP" (getenv environ "RUNPOD_POD_IP" "localhost").

Definition get_tcp_port : string :=
  let port_env := "RUNPOD_TCP_PORT_" ++ str_of_int PERSONAPLEX_PORT in
  getenv environ port_env (str_of_int PERSONAPLEX_PORT).

(** The [while] loop of [wait_for_server] (lines 46-55); [now st] is what
    [time.time()] returns in the loop condition. *)
Fixpoint wait_for_server_loop (fuel : nat) (host : string) (port : Z)
    (timeout : Z) (start_time : Z) : M bool :=
  fun st =>
    if now st - start_time <? 1000 * timeout then
      match fuel with
      | O => Out st
      | S fuel' =>
          let again :=
            time_sleep 1 ;;
            wait_for_server_loop fuel' host port timeout start_time in
          match connect_attempt host port st with
          | Ret result st1 =>
              if result =? 0 then Ret true st1 else again st1
          | Exc e st1 =>
              if is_socket_error e then again st1 else Exc e st1
          | Out st1 => Out st1
          end
      end
    else Ret false st.

(** [wait_for_server(host, port, timeout)].  Every round of the loop
    sleeps a second, so [timeout] rounds are all the loop can make. *)
Definition wait_for_server (host : string) (port : Z) (timeout : Z) : M bool :=
  start_time <- time_time ;;
  wait_for_server_loop (Z.to_nat timeout) host port timeout start_time.

Definition set_server_process (h : option nat) : M unit :=
  fun st => Ret tt (mkState h (now st) (calls st) (procs st) (trace st)).

Definition get_server_process : M (option nat) :=
  fun st => Ret (server_process st) st.

Definition start_personaplex_server : M nat :=
  let cmd :=
    (["/app/moshi/.venv/bin/python"; "-m"; "moshi.server";
      "--ssl"; SSL_DIR; "--host"; "0.0.0.0";
      "--port"; str_of_int PERSONAPLEX_PORT]
     ++ (if CPU_OFFLOAD then ["--cpu-offload"] else []))%list in
  let env :=
    if String.eqb HF_TOKEN "" then environ
    else setenv environ "HF_TOKEN" HF_TOKEN in
  h <- popen cmd env ;;
  set_server_process (Some h) ;;
  ret h.

(** Lines 161-164: what the loop does when the health check fails.  The
    global is read again; it still holds the handle the loop polled. *)
Definition restart : M unit :=
  print [VStr "[PersonaPlex] Server health check failed, restarting..."] ;;
  sp <- get_server_process ;;
  match sp with
  | None => raise (AttributeError "'NoneType' object has no attribute 'terminate'")
  | Some h => terminate h
  end ;;
  h' <- start_personaplex_server ;;
  set_server_process (Some h') ;;
  _ <- wait_for_server "localhost" PERSONAPLEX_PORT 60 ;;
  ret tt.

(** The monitoring loop, lines 156-164. *)
Fixpoint monitor (fuel : nat) : M unit :=
  fun st =>
    match server_process st with
    | None => Ret tt st
    | Some h =>
        match fuel with
        | O => Out st
        | S fuel' =>
            (rc <- poll h ;;
             match rc with
             | Some _ => ret tt
             | None =>
                 time_sleep 5 ;;
                 healthy <- wait_for_server "localhost" PERSONAPLEX_PORT 5 ;;
                 (if healthy then ret tt else restart) ;;
                 monitor fuel'
             end) st
        end
    end.

(** The value of [p.returncode] as a Python object. *)
Definition py_returncode (rc : option Z) : PyVal :=
  match rc with
  | Some c => VInt c
  | None => VNone
  end.

Definition stopped_result (return_code : PyVal) (session_id : PyVal) : PyVal :=
  VDict [("status", VStr "stopped");
         ("reason", VStr "server_exited");
         ("return_code", return_code);
         ("session_id", session_id)].

Definition error_result (msg : string) (session_id : PyVal) : PyVal :=
  VDict [("status", VStr "error");
         ("error", VStr msg);
         ("session_id", session_id)].

Definition failure_result (msg : string) : PyVal :=
  VDict [("error", VStr msg)].

(** The body of the [try], lines 155-173. *)
Definition monitor_and_report (fuel : nat) (session_id : PyVal) : M PyVal :=
  monitor fuel ;;
  sp <- get_server_process ;;
  return_code <-
    match sp with
    | Some h => rc <- get_returncode h ;; ret (py_returncode rc)
    | None => ret (VInt (-1))
    end ;;
  ret (stopped_result return_code session_id).

(** The [try ... except Exception], lines 154-180. *)
Definition guarded_monitor (fuel : nat) (session_id : PyVal) : M PyVal :=
  try_except_Exception (monitor_and_report fuel session_id)
    (fun e => ret (error_result (exc_str e) session_id)).

(** The [finally] block, lines 181-189. *)
Definition cleanup : M unit :=
  sp <- get_server_process ;;
  match sp with
  | None => ret tt
  | Some h =>
      rc <- poll h ;;
      match rc with
      | Some _ => ret tt
      | None =>
          print [VStr "[PersonaPlex] Shutting down server..."] ;;
          terminate h ;;
          (fun st =>
             match wait h 10 st with
             | Ret _ st1 => Ret tt st1
             | Exc e st1 =>
                 if is_TimeoutExpired e then kill h st1 else Exc e st1
             | Out st1 => Out st1
             end)
      end
  end.

(** Lines 154-189. *)
Definition monitoring (fuel : nat) (session_id : PyVal) : M PyVal :=
  finally_ (guarded_monitor fuel session_id) cleanup.

Definition connection_info (session_id : PyVal) : PyVal :=
  let public_ip := get_public_ip in
  let public_port := get_tcp_port in
  VDict [("status", VStr "running");
         ("session_id", session_id);
         ("connection",
           VDict [("protocol", VStr "wss");
                  ("host", VStr public_ip);
                  ("port", VStr public_port);
                  ("url", VStr ("wss://" ++ public_ip ++ ":" ++ public_port))]);
         ("server_port", VInt PERSONAPLEX_PORT);
         ("message",
           VStr "PersonaPlex server is running. Connect via WebSocket.")].

(** Lines 108-109.  [job_input.get] needs a dict, and the default
    [job["id"]] is evaluated before [get] is called. *)
Definition read_session_id (job : PyDict) : M PyVal :=
  let job_input :=
    match dict_get job "input" with
    | Some v => v
    | None => VDict []
    end in
  match job_input with
  | VDict d =>
      match dict_get job "id" with
      | None => raise (KeyError "id")
      | Some id =>
          ret (match dict_get d "session_id" with
               | Some v => v
               | None => id
               end)
      end
  | _ => raise (AttributeError "object has no attribute 'get'")
  end.

Definition handler (fuel : nat) (job : PyDict) : M PyVal :=
  session_id <- read_session_id job ;;
  print [VStr "[PersonaPlex] Starting server for session: "; session_id] ;;
  fun st =>
    match start_personaplex_server st with
    | Exc e st1 =>
        if is_Exception e then
          Ret (failure_result
                 ("Failed to start PersonaPlex server: " ++ exc_str e)) st1
        else Exc e st1
    | Out st1 => Out st1
    | Ret h st1 =>
        (set_server_process (Some h) ;;
         print [VStr "[PersonaPlex] Waiting for server on port ";
                VInt PERSONAPLEX_PORT; VStr "..."] ;;
         ready <- wait_for_server "localhost" PERSONAPLEX_PORT 120 ;;
         if negb ready then
           sp <- get_server_process ;;
           match sp with
           | Some p => terminate p
           | None => ret tt
           end ;;
           ret (failure_result
                  "PersonaPlex server failed to start within timeout")
         else
           print [VStr "[PersonaPlex] Server is ready!"] ;;
           let info := connection_info session_id in
           progress_update job info ;;
           print [VStr "[PersonaPlex] Server running at ";
                  VStr ("wss://" ++ get_public_ip ++ ":" ++ get_tcp_port)] ;;
           print [VStr "[PersonaPlex] Waiting for cancellation signal..."] ;;
           monitoring fuel session_id) st1
    end.

End Handler.

(** ** The restart as the specification words it *)

(** "Terminate the current SupervisedProcess, then invoke Launcher to
    produce a replacement, then invoke Readiness Prober with the original
    startup timeout."  The log line and the handling of the global are
    those of [restart], so that the two can be compared call for call. *)
Definition restart_spec (script : nat -> Resp) (cfg : Config)
    (startup_timeout : Z) : M unit :=
  print [VStr "[PersonaPlex] Server health check failed, restarting..."] ;;
  sp <- get_server_process ;;
  match sp with
  | None => raise (AttributeError "'NoneType' object has no attribute 'terminate'")
  | Some h => terminate script h
  end ;;
  h' <- start_personaplex_server script cfg ;;
  set_server_process (Some h') ;;
  _ <- wait_for_server script "localhost" (personaplex_port cfg) startup_timeout ;;
  ret tt.

(** ** Vocabulary of the statements *)

(** A connect attempt after which [wait_for_server] goes on waiting:
    [connect_ex] returned a non-zero code, or a [socket.error] was raised
    and swallowed. *)
Definition attempt_failed (a : Attempt) : Prop :=
  match a with
  | Returned c => c <> 0
  | Raised e => is_socket_error e = true
  end.

(** The trace of one unsuccessful round of [wait_for_server], newest
    event first: the attempt, then the one-second sleep. *)
Definition failed_round (host : string) (port : Z) (a : Attempt) : list Event :=
  [EvSleep 1; EvConnect host port a].

(** What a call of [wait_for_server] that returned [b] after the failed
    attempts [fails] (newest first) adds to the trace. *)
Definition wait_trace (host : string) (port : Z) (b : bool)
    (fails : list Attempt) : list Event :=
  ((if b then [EvConnect host port (Returned 0)] else [])
   ++ flat_map (failed_round host port) fails)%list.

(** In this answer the connect attempt succeeds. *)
Definition accepts (r : Resp) : Prop :=
  r_raise r KConnect = None /\ r_connect r = 0.

(** Number of processes launched in a trace. *)
Fixpoint launches (tr : list Event) : nat :=
  match tr with
  | [] => 0
  | EvPopen _ :: r => S (launches r)
  | _ :: r => launches r
  end.

(** Number of connect attempts in a trace. *)
Fixpoint connects (tr : list Event) : nat :=
  match tr with
  | [] => 0
  | EvConnect _ _ _ :: r => S (connects r)
  | _ :: r => connects r
  end.

(** The environment lets the signals through: [terminate], [kill] and
    [wait] raise nothing of their own ([wait] still raises
    [TimeoutExpired] when the child outlives its timeout). *)
Definition signals_delivered (script : nat -> Resp) : Prop :=
  forall i,
    r_raise (script i) KTerminate = None /\
    r_raise (script i) KKill = None /\
    r_raise (script i) KWait = None.

(** The handle most recently launched in a trace. *)
Fixpoint current (tr : list Event) : option nat :=
  match tr with
  | [] => None
  | EvPopen h :: _ => Some h
  | _ :: r => current r
  end.

(** Single ownership within a session, read off the events the session
    has added to the trace (newest first): every [poll], [terminate],
    [wait] and [kill] goes to the handle the session launched last; a
    launch gives a fresh handle ([n0] is the size of the process table
    when the session began) and, when it replaces a handle, comes
    directly after [terminate] on that handle. *)
Fixpoint owned_from (n0 : nat) (tr : list Event) : Prop :=
  match tr with
  | [] => True
  | e :: r =>
      owned_from n0 r /\
      match e with
      | EvPopen h =>
          h = (n0 + launches r)%nat /\
          match current r with
          | None => True
          | Some h0 => exists r', r = EvTerminate h0 :: r'
          end
      | EvPoll h _ | EvTerminate h | EvWait h _ _ | EvKill h =>
          current r = Some h
      | _ => True
      end
  end.

(** [new] is what a session that began in state [st0] has added to the
    trace by the time it is in state [st]: the events are [owned_from]
    the table of [st0], and the table has grown by the launches. *)
Definition session_events (st0 st : State) (new : list Event) : Prop :=
  trace st = (new ++ trace st0)%list /\
  owned_from (List.length (procs st0)) new /\
  List.length (procs st) = (List.length (procs st0) + launches new)%nat.

(** The session has launched a child, and the global holds the handle it
    launched last. *)
Definition owning (st0 st : State) : Prop :=
  exists new h,
    session_events st0 st new /\
    current new = Some h /\ server_process st = Some h.

(** The session has not launched anything yet; the global is what the
    session found. *)
Definition not_launched (st0 st : State) : Prop :=
  exists new,
    session_events st0 st new /\
    current new = None /\ server_process st = server_process st0.

(** The invariant of a session that began in [st0]. *)
Definition session_owner (st0 st : State) : Prop :=
  not_launched st0 st \/ owning st0 st.

(** The three objects [handler] can return. *)
Definition terminal_result (v : PyVal) : Prop :=
  (exists rc sid, v = stopped_result rc sid) \/
  (exists msg sid, v = error_result msg sid) \/
  (exists msg, v = failure_result msg).


(** A Hoare triple with one postcondition per way of ending. *)
Definition triple {A} (P : State -> Prop) (m : M A)
    (Q : A -> State -> Prop) (E : PyExc -> State -> Prop)
    (O : State -> Prop) : Prop :=
  forall st, P st ->
    match m st with
    | Ret a s => Q a s
    | Exc e s => E e s
    | Out s => O s
    end.

(** Some external call of kind [k] raises [e]. *)
Definition raised_by (script : nat -> Resp) (k : CallKind) (e : PyExc) : Prop :=
  exists i, r_raise (script i) k = Some e.

(** An exception that can come out of the body of the monitoring [try]:
    raised by an external call, and not a [socket.error] of a connect
    attempt. *)
Definition origin (script : nat -> Resp) (e : PyExc) : Prop :=
  exists k, raised_by script k e /\ (k = KConnect -> is_socket_error e = false).

(** A world in which the port never accepts, no child ever exits and no
    call raises. *)
Definition unreachable (script : nat -> Resp) : Prop :=
  forall i,
    r_exits (script i) = [] /\
    (forall k, r_raise (script i) k = None) /\
    r_connect (script i) <> 0.

(** A world in which the port always accepts, no child ever exits and no
    call raises. *)
Definition healthy (script : nat -> Resp) : Prop :=
  forall i,
    r_exits (script i) = [] /\
    (forall k, r_raise (script i) k = None) /\
    r_connect (script i) = 0.

(** The only exceptions connect attempts raise are [socket.error]s. *)
Definition socket_errors_only (script : nat -> Resp) : Prop :=
  forall i e, r_raise (script i) KConnect = Some e -> is_socket_error e = true.

(** ** States along a run *)

(** What the passing of external calls does to the state when nothing is
    spawned: the global is untouched, the clock does not go back, no entry
    of the process table appears or disappears, an exit is final. *)
Definition env_le (script : nat -> Resp) (st st' : State) : Prop :=
  server_process st' = server_process st /\
  now st <= now st' /\
  List.length (procs st') = List.length (procs st) /\
  (forall h c, exit_status (procs st) h = Some c ->
               exit_status (procs st') h = Some c) /\
  ((forall i, r_exits (script i) = []) ->
   forall h, exit_status (procs st') h = exit_status (procs st) h).

(** The state [poll] leaves behind. *)
Definition polled (script : nat -> Resp) (h : nat) (st : State) : State :=
  state_of (poll script h st).

Definition printed (p : list PyVal) (st : State) : State :=
  record (EvPrint p) st.

Definition slept (script : nat -> Resp) (secs : Z) (st : State) : State :=
  record (EvSleep secs) (step script (1000 * secs) st).

Definition terminated (script : nat -> Resp) (h : nat) (st : State) : State :=
  record (EvTerminate h) (step script 0 st).

(** The state a launch leaves behind. *)
Definition launched (script : nat -> Resp) (cfg : Config) (st : State) : State :=
  state_of (start_personaplex_server script cfg st).

(** ** Postconditions of the triples *)

(** A predicate [J] on states together with the value of the global. *)
Definition with_handle (J : State -> Prop) (sp : option nat) (st : State) : Prop :=
  J st /\ server_process st = sp.

(** How an exception leaves the body of the monitoring [try]. *)
Definition from_call (script : nat -> Resp) (J : State -> Prop)
    (e : PyExc) (st : State) : Prop :=
  J st /\ origin script e.

(** What the [finally] block can raise. *)
Definition from_signal (script : nat -> Resp) (J : State -> Prop)
    (e : PyExc) (st : State) : Prop :=
  J st /\
  (raised_by script KTerminate e \/ raised_by script KWait e \/
   raised_by script KKill e).

(** An exception coming out of lines 154-189. *)
Definition from_monitoring (script : nat -> Resp) (J : State -> Prop)
    (e : PyExc) (st : State) : Prop :=
  J st /\
  exists i k,
    r_raise (script i) k = Some e /\
    (k = KPopen -> is_Exception e = false) /\
    (k = KConnect -> is_socket_error e = false).


(** ** Scenarios *)

(** An answer in which nothing happens and the port accepts. *)
Definition accepting : Resp := mkResp 0 [] (fun _ => None) 0.

(** An answer in which nothing happens and the connection is refused
    ([ECONNREFUSED]). *)
Definition refusing : Resp := mkResp 0 [] (fun _ => None) 111.

(** An answer during which child [h] exits with status [c]. *)
Definition exiting (h : nat) (c : Z) (r : Resp) : Resp :=
  mkResp (r_elapsed r) [(h, c)] (r_raise r) (r_connect r).

Definition default_config : Config :=
  mkConfig 8998 "/app/ssl" "" false [].

Definition job1 : PyDict :=
  [("id", VStr "job-1"); ("input", VDict [("session_id", VStr "s1")])].

(** A state in the middle of a session: one child, launched and alive. *)
Definition one_child : State :=
  mkState (Some 0%nat) 0 0 [mkPopen [] [] None None] [].

(** The same, the child having exited with status 1. *)
Definition one_dead_child : State :=
  mkState (Some 0%nat) 0 0 [mkPopen [] [] (Some 1) None] [].

Definition always_accepting (i : nat) : Resp := accepting.

Definition always_refusing (i : nat) : Resp := refusing.

(** The child is ready at once and healthy at the first check; it exits
    with status 1 just before the second [poll] (call 6). *)
Definition healthy_then_exit (i : nat) : Resp :=
  if Nat.eqb i 6 then exiting 0 1 accepting else accepting.

(** The child is ready at once, then exits with status 1 on its own
    during the first [time.sleep(5)] (call 4); from then on the port
    refuses until the replacement listens (call 17).  The replacement
    exits with status 0 at call 20. *)
Definition exit_while_sleeping (i : nat) : Resp :=
  if Nat.eqb i 4 then exiting 0 1 accepting
  else if Nat.leb 5 i && Nat.leb i 16 then refusing
  else if Nat.eqb i 20 then exiting 1 0 accepting
  else accepting.

(** The executable is gone: every launch raises [FileNotFoundError] (an
    [OSError]); the port refuses. *)
Definition launch_fails (i : nat) : Resp :=
  mkResp 0 []
    (fun k => match k with
              | KPopen => Some (OSError "[Errno 2] No such file or directory")
              | _ => None
              end)
    111.


(** The server is ready at once (call 1) and never reachable again; the
    first two children stay alive, the third exits with status 0 as soon
    as it is launched. *)
Definition never_healthy (i : nat) : Resp :=
  if Nat.eqb i 1 then accepting else exiting 2 0 refusing.

(** The server is ready at once, then the port refuses during the first
    health check (calls 5 to 14) and accepts again afterwards.  No child
    ever exits: the first one ignores [terminate]. *)
Definition deaf_child (i : nat) : Resp :=
  if Nat.leb 5 i && Nat.leb i 14 then refusing else accepting.


(** The server is ready at once (call 1) and never reachable again; no
    child exits, and the operating system refuses every [terminate]
    ([PermissionError], an [OSError]). *)
Definition signals_refused (i : nat) : Resp :=
  mkResp 0 []
    (fun k => match k with
              | KTerminate => Some (OSError "[Errno 1] Operation not permitted")
              | _ => None
              end)
    (if Nat.eqb i 1 then 0 else 111).

(** ** The rest of the module *)

(** [concurrency_modifier(current_concurrency)], lines 192-197. *)
Definition concurrency_modifier (current_concurrency : Z) : Z := 1.

(** ** Vocabulary of the further properties *)

(** Number of progress updates sent in a trace. *)
Fixpoint progress_updates (tr : list Event) : nat :=
  match tr with
  | [] => 0
  | EvProgress _ :: r => S (progress_updates r)
  | _ :: r => progress_updates r
  end.

(** Number of [terminate] and [kill] calls in a trace. *)
Fixpoint signals (tr : list Event) : nat :=
  match tr with
  | [] => 0
  | EvTerminate _ :: r | EvKill _ :: r => S (signals r)
  | _ :: r => signals r
  end.

(** The trace of [st'] is the trace of [base] followed by events among
    which there is no progress update. *)
Definition no_progress_since (base : list Event) (st' : State) : Prop :=
  exists after,
    trace st' = (after ++ base)%list /\ progress_updates after = 0%nat.

(** What [job.get("input", {})] gives on line 108. *)
Definition job_input (job : PyDict) : PyVal :=
  match dict_get job "input" with
  | Some v => v
  | None => VDict []
  end.

(** A job that carries a session id but no ["id"]. *)
Definition job_without_id : PyDict :=
  [("input", VDict [("session_id", VStr "s1")])].

(** A configuration with a token and the CPU offload. *)
Definition token_config : Config :=
  mkConfig 8998 "/app/ssl" "hf_secret" true
    [("PATH", "/usr/bin"); ("HF_TOKEN", "stale")].

(** Every connect attempt raises [OverflowError], which is not a
    [socket.error] (a port outside 0-65535). *)
Definition port_out_of_range (i : nat) : Resp :=
  mkResp 0 []
    (fun k => match k with
              | KConnect => Some (OtherException "bind(): port must be 0-65535.")
              | _ => None
              end)
    0.


(** As [deaf_child], and the replacement exits with status 0 just before
    the loop polls it (call 18). *)
Definition deaf_child_then_exit (i : nat) : Resp :=
  if Nat.eqb i 18 then exiting 1 0 accepting else deaf_child i.

(** ** Facts about the world *)

Lemma nth_error_update_nth {A} (f : A -> A) (l : list A) (n m : nat) :
  nth_error (update_nth n f l) m =
  if Nat.eqb n m then option_map f (nth_error l m) else nth_error l m.
Proof.
  revert n m; induction l as [|x l IH]; intros n m.
  - destruct n, m; simpl; try reflexivity; destruct (Nat.eqb n m); reflexivity.
  - destruct n, m; simpl; try reflexivity. apply IH.
Qed.

Lemma length_update_nth {A} (f : A -> A) (l : list A) (n : nat) :
  List.length (update_nth n f l) = List.length l.
Proof.
  revert n; induction l as [|x l IH]; intros [|n]; simpl; auto.
Qed.

Lemma length_apply_exits ex ps :
  List.length (apply_exits ex ps) = List.length ps.
Proof.
  revert ps; induction ex as [|[h c] ex IH]; intros ps; simpl; auto.
  rewrite IH. apply length_update_nth.
Qed.

Lemma exit_status_set_exited ps k c h :
  exit_status (update_nth k (set_exited c) ps) h =
  match exit_status ps h with
  | Some c0 => Some c0
  | None =>
      if Nat.eqb k h then
        match nth_error ps h with Some _ => Some c | None => None end
      else None
  end.
Proof.
  unfold exit_status. rewrite nth_error_update_nth.
  destruct (Nat.eqb k h); destruct (nth_error ps h) as [p|]; simpl; auto.
  all: unfold set_exited; destruct (exited p) eqn:E; simpl; rewrite ?E; reflexivity.
Qed.

(** A child that has exited stays exited, with the same status. *)
Lemma exit_status_apply_exits ex ps h c :
  exit_status ps h = Some c -> exit_status (apply_exits ex ps) h = Some c.
Proof.
  revert ps; induction ex as [|[k c'] ex IH]; intros ps H; simpl; auto.
  apply IH. rewrite exit_status_set_exited, H. reflexivity.
Qed.

Lemma exit_status_set_returncode ps k rc h :
  exit_status (update_nth k (set_returncode rc) ps) h = exit_status ps h.
Proof.
  unfold exit_status. rewrite nth_error_update_nth.
  destruct (Nat.eqb k h); destruct (nth_error ps h); reflexivity.
Qed.

Lemma exit_status_app_old ps p h :
  (h < List.length ps)%nat -> exit_status (ps ++ [p]) h = exit_status ps h.
Proof.
  intros H. unfold exit_status. rewrite nth_error_app1 by assumption. reflexivity.
Qed.

Lemma exit_status_app_new ps p :
  exit_status (ps ++ [p]) (List.length ps) = exited p.
Proof.
  unfold exit_status. rewrite nth_error_app2 by lia.
  rewrite Nat.sub_diag. reflexivity.
Qed.

(** ** Rules of the triples *)

Section Triples.

Context {A B : Type}.

Lemma triple_ret (P : State -> Prop) (a : A) Q E O :
  (forall st, P st -> Q a st) -> triple P (ret a) Q E O.
Proof. intros H st HP. apply H, HP. Qed.

Lemma triple_raise (P : State -> Prop) (e : PyExc) (Q : A -> State -> Prop) E O :
  (forall st, P st -> E e st) -> triple P (raise e) Q E O.
Proof. intros H st HP. apply H, HP. Qed.

Lemma triple_bind P (m : M A) (k : A -> M B) Q R E O :
  triple P m Q E O ->
  (forall a, triple (Q a) (k a) R E O) ->
  triple P (bind m k) R E O.
Proof.
  intros Hm Hk st HP. unfold bind. specialize (Hm st HP).
  destruct (m st) as [a s|e s|s]; auto. apply Hk, Hm.
Qed.

Lemma triple_weaken (P P' : State -> Prop) (m : M A)
    (Q Q' : A -> State -> Prop) (E E' : PyExc -> State -> Prop)
    (O O' : State -> Prop) :
  triple P m Q E O ->
  (forall st, P' st -> P st) ->
  (forall a st, Q a st -> Q' a st) ->
  (forall e st, E e st -> E' e st) ->
  (forall st, O st -> O' st) ->
  triple P' m Q' E' O'.
Proof.
  intros H HP HQ HE HO st HP'. specialize (H st (HP st HP')).
  destruct (m st); auto.
Qed.

Lemma triple_try_except P (m : M A) (h : PyExc -> M A) Q E E' O :
  triple P m Q E' O ->
  (forall e, is_Exception e = true -> triple (E' e) (h e) Q E O) ->
  (forall e st, is_Exception e = false -> E' e st -> E e st) ->
  triple P (try_except_Exception m h) Q E O.
Proof.
  intros Hm Hh Hesc st HP. unfold try_except_Exception.
  specialize (Hm st HP).
  destruct (m st) as [a s|e s|s]; auto.
  destruct (is_Exception e) eqn:C.
  - apply (Hh e C), Hm.
  - apply Hesc; assumption.
Qed.

Lemma triple_finally P (m : M A) (c : M unit) Q Q1 E E1 O :
  triple P m Q1 E1 O ->
  (forall a, triple (Q1 a) c (fun _ => Q a) E O) ->
  (forall e, triple (E1 e) c (fun _ => E e) E O) ->
  triple P (finally_ m c) Q E O.
Proof.
  intros Hm Hr He st HP. unfold finally_. specialize (Hm st HP).
  destruct (m st) as [a s|e s|s]; auto.
  - specialize (Hr a s Hm). destruct (c s); auto.
  - specialize (He e s Hm). destruct (c s); auto.
Qed.

End Triples.

(** ** Facts about the primitives *)

Section Facts.

Variable script : nat -> Resp.

Lemma env_le_refl st : env_le script st st.
Proof. unfold env_le; repeat split; auto; lia. Qed.

Lemma env_le_trans st1 st2 st3 :
  env_le script st1 st2 -> env_le script st2 st3 -> env_le script st1 st3.
Proof.
  intros (A1 & A2 & A3 & A4 & A5) (B1 & B2 & B3 & B4 & B5).
  unfold env_le; repeat split; try congruence; try lia; auto.
  intros Hq h. rewrite B5, A5; auto.
Qed.

Lemma env_le_step req st :
  0 <= req -> env_le script st (step script req st).
Proof.
  intros Hreq. unfold env_le, step; simpl. repeat split; auto.
  - lia.
  - apply length_apply_exits.
  - intros h c. apply exit_status_apply_exits.
  - intros Hq h. rewrite Hq. reflexivity.
Qed.

Lemma env_le_record e st st' :
  env_le script st st' -> env_le script st (record e st').
Proof. intros H; exact H. Qed.

(** ** [wait_for_server] *)

Lemma flat_map_failed_round_snoc host port fails a :
  flat_map (failed_round host port) (fails ++ [a]) =
  (flat_map (failed_round host port) fails ++ failed_round host port a)%list.
Proof. rewrite flat_map_app. reflexivity. Qed.

Lemma wait_for_server_loop_spec fuel host port timeout start_time st :
  (forall i e, r_raise (script i) KConnect = Some e -> is_socket_error e = true) ->
  1000 * timeout - (now st - start_time) <= 1000 * Z.of_nat fuel ->
  exists b fails st',
    wait_for_server_loop script fuel host port timeout start_time st = Ret b st' /\
    Forall attempt_failed fails /\
    (List.length fails <= fuel)%nat /\
    trace st' = (wait_trace host port b fails ++ trace st)%list /\
    (b = false -> start_time + 1000 * timeout <= now st') /\
    ((forall i, ~ accepts (script i)) -> b = false) /\
    env_le script st st'.
Proof.
  intros Hsock. revert st.
  induction fuel as [|fuel IH]; intros st Hfuel; cbn [wait_for_server_loop].
  - destruct (now st - start_time <? 1000 * timeout) eqn:C.
    + apply Z.ltb_lt in C. lia.
    + apply Z.ltb_ge in C. exists false, [], st.
      split; [reflexivity|]. split; [constructor|]. split; [simpl; lia|].
      split; [reflexivity|]. split; [intros _; lia|].
      split; [reflexivity|apply env_le_refl].
  - destruct (now st - start_time <? 1000 * timeout) eqn:C.
    2:{ apply Z.ltb_ge in C. exists false, [], st.
        split; [reflexivity|]. split; [constructor|]. split; [simpl; lia|].
        split; [reflexivity|]. split; [intros _; lia|].
        split; [reflexivity|apply env_le_refl]. }
    apply Z.ltb_lt in C.
    (* the state after the attempt and the one-second sleep *)
    assert (Hround : forall a,
      attempt_failed a ->
      exists b fails st',
        bind (time_sleep script 1)
             (fun _ => wait_for_server_loop script fuel host port timeout start_time)
             (record (EvConnect host port a) (step script 0 st)) = Ret b st' /\
        Forall attempt_failed fails /\
        (List.length fails <= S fuel)%nat /\
        trace st' = (wait_trace host port b fails ++ trace st)%list /\
        (b = false -> start_time + 1000 * timeout <= now st') /\
        ((forall i, ~ accepts (script i)) -> b = false) /\
        env_le script st st').
    { intros a Ha. unfold bind, time_sleep.
      set (st2 := record (EvSleep 1)
                    (step script (1000 * 1)
                       (record (EvConnect host port a) (step script 0 st)))).
      assert (Hnow : now st + 1000 <= now st2).
      { unfold st2, record, step; simpl. lia. }
      destruct (IH st2) as (b & fails & st' & E & F & L & T & TO & NA & LE).
      { lia. }
      exists b, (fails ++ [a])%list, st'. split; [exact E|].
      split; [apply Forall_app; split; auto|].
      split; [rewrite length_app; simpl; lia|].
      split.
      { rewrite T. unfold wait_trace. rewrite flat_map_failed_round_snoc.
        unfold st2; simpl. rewrite <- !app_assoc. reflexivity. }
      split; [exact TO|]. split; [exact NA|].
      eapply env_le_trans; [|exact LE].
      unfold st2. apply env_le_record.
      apply env_le_trans with (record (EvConnect host port a) (step script 0 st)).
      - apply env_le_record, env_le_step; lia.
      - apply env_le_step; lia. }
    unfold connect_attempt, answer.
    destruct (r_raise (script (calls st)) KConnect) as [e|] eqn:R.
    + rewrite (Hsock _ _ R). apply Hround. simpl. eapply Hsock; eauto.
    + destruct (r_connect (script (calls st)) =? 0) eqn:Z0.
      * apply Z.eqb_eq in Z0. rewrite Z0.
        exists true, [], (record (EvConnect host port (Returned 0)) (step script 0 st)).
        split; [reflexivity|]. split; [constructor|]. split; [simpl; lia|].
        split; [reflexivity|]. split; [discriminate|].
        split.
        { intros NA. exfalso. apply (NA (calls st)). split; assumption. }
        apply env_le_record, env_le_step; lia.
      * apply Z.eqb_neq in Z0. apply Hround. exact Z0.
Qed.

Lemma wait_for_server_total host port timeout st :
  (forall i e, r_raise (script i) KConnect = Some e -> is_socket_error e = true) ->
  exists b fails st',
    wait_for_server script host port timeout st = Ret b st' /\
    Forall attempt_failed fails /\
    Z.of_nat (List.length fails) <= Z.max 0 timeout /\
    trace st' = (wait_trace host port b fails ++ trace st)%list /\
    (b = false -> now st + 1000 * timeout <= now st') /\
    ((forall i, ~ accepts (script i)) -> b = false) /\
    env_le script st st'.
Proof.
  intros Hsock. unfold wait_for_server, bind, time_time.
  destruct (wait_for_server_loop_spec (Z.to_nat timeout) host port timeout (now st) st Hsock)
    as (b & fails & st' & E & F & L & T & TO & NA & LE).
  { lia. }
  exists b, fails, st'.
  split; [exact E|]. split; [exact F|]. split; [lia|]. split; [exact T|].
  split; [exact TO|]. split; [exact NA|exact LE].
Qed.

End Facts.

(** ** The monitoring session *)

Section Session.

Variable script : nat -> Resp.
Variable cfg : Config.

Lemma bind_Ret {A B} (m : M A) (k : A -> M B) st a st1 :
  m st = Ret a st1 -> bind m k st = k a st1.
Proof. intros H. unfold bind. rewrite H. reflexivity. Qed.

Lemma bind_Exc {A B} (m : M A) (k : A -> M B) st e st1 :
  m st = Exc e st1 -> bind m k st = Exc e st1.
Proof. intros H. unfold bind. rewrite H. reflexivity. Qed.

Lemma bind_Out {A B} (m : M A) (k : A -> M B) st st1 :
  m st = Out st1 -> bind m k st = Out st1.
Proof. intros H. unfold bind. rewrite H. reflexivity. Qed.

Lemma poll_eq h st :
  poll script h st = Ret (exit_status (procs (step script 0 st)) h) (polled script h st).
Proof. reflexivity. Qed.

Lemma trace_polled h st :
  trace (polled script h st) =
  EvPoll h (exit_status (procs (step script 0 st)) h) :: trace st.
Proof. reflexivity. Qed.

Lemma server_process_polled h st :
  server_process (polled script h st) = server_process st.
Proof. reflexivity. Qed.

Lemma env_le_polled h st : env_le script st (polled script h st).
Proof.
  unfold polled, poll; simpl.
  apply env_le_trans with (step script 0 st).
  - apply env_le_step; lia.
  - unfold env_le; simpl. repeat split; auto; try lia.
    + apply length_update_nth.
    + intros k c. rewrite exit_status_set_returncode. auto.
    + intros _ k. apply exit_status_set_returncode.
Qed.

Lemma exit_status_step h c req st :
  exit_status (procs st) h = Some c ->
  exit_status (procs (step script req st)) h = Some c.
Proof. intros H. unfold step; simpl. apply exit_status_apply_exits, H. Qed.

Lemma exit_status_polled h k st :
  exit_status (procs (polled script h st)) k = exit_status (procs (step script 0 st)) k.
Proof. unfold polled, poll; simpl. apply exit_status_set_returncode. Qed.

(** After [poll], [returncode] holds what [poll] returned. *)
Lemma returncode_polled h st c :
  exit_status (procs (step script 0 st)) h = Some c ->
  get_returncode h (polled script h st) = Ret (Some c) (polled script h st).
Proof.
  intros H. unfold exit_status in H.
  destruct (nth_error (procs (step script 0 st)) h) as [p|] eqn:E; [|discriminate].
  unfold get_returncode. f_equal.
  unfold polled, poll. cbn -[step].
  rewrite nth_error_update_nth, Nat.eqb_refl, E. cbn -[step].
  unfold exit_status. rewrite E. exact H.
Qed.

(** [cleanup] on a process that has exited: one [poll], nothing else. *)
Lemma cleanup_exited st h c :
  server_process st = Some h ->
  exit_status (procs st) h = Some c ->
  cleanup script st = Ret tt (polled script h st) /\
  trace (polled script h st) = EvPoll h (Some c) :: trace st.
Proof.
  intros Hsp Hex.
  pose proof (exit_status_step h c 0 st Hex) as Hex'.
  split.
  - unfold cleanup, bind, get_server_process. rewrite Hsp, poll_eq, Hex'.
    reflexivity.
  - rewrite trace_polled, Hex'. reflexivity.
Qed.

(** The loop stops at the first [poll] that sees the child gone. *)
Lemma monitor_exited fuel st h c :
  server_process st = Some h ->
  exit_status (procs (step script 0 st)) h = Some c ->
  monitor script cfg (S fuel) st = Ret tt (polled script h st).
Proof.
  intros Hsp Hex. cbn [monitor]. rewrite Hsp.
  rewrite (bind_Ret _ _ _ _ _ (poll_eq h st)), Hex. reflexivity.
Qed.

Lemma monitor_and_report_exited fuel sid st h c :
  server_process st = Some h ->
  exit_status (procs (step script 0 st)) h = Some c ->
  monitor_and_report script cfg (S fuel) sid st =
  Ret (stopped_result (VInt c) sid) (polled script h st).
Proof.
  intros Hsp Hex. unfold monitor_and_report.
  rewrite (bind_Ret _ _ _ _ _ (monitor_exited fuel st h c Hsp Hex)).
  unfold bind at 1. unfold get_server_process.
  rewrite server_process_polled, Hsp.
  unfold bind at 1. unfold bind at 1.
  rewrite (returncode_polled h st c Hex). reflexivity.
Qed.

Lemma monitoring_exited fuel sid st h c :
  server_process st = Some h ->
  exit_status (procs (step script 0 st)) h = Some c ->
  monitoring script cfg (S fuel) sid st =
  Ret (stopped_result (VInt c) sid) (polled script h (polled script h st)).
Proof.
  intros Hsp Hex. unfold monitoring, finally_, guarded_monitor, try_except_Exception.
  rewrite (monitor_and_report_exited fuel sid st h c Hsp Hex).
  destruct (cleanup_exited (polled script h st) h c) as [E _].
  - rewrite server_process_polled. exact Hsp.
  - rewrite exit_status_polled. exact Hex.
  - rewrite E. reflexivity.
Qed.

(** With the signals delivered the [finally] block completes.  Its trace
    is one of: nothing (no handle), a [poll] that sees the child gone, or
    [poll], [terminate], [wait] and, when the wait expired, [kill]. *)
Lemma cleanup_total st :
  signals_delivered script ->
  exists st',
    cleanup script st = Ret tt st' /\
    server_process st' = server_process st /\
    ((server_process st = None /\ st' = st) \/
     (exists h c, server_process st = Some h /\
        trace st' = EvPoll h (Some c) :: trace st) \/
     (exists h c, server_process st = Some h /\
        trace st' =
          EvWait h 10 (Some c) :: EvTerminate h ::
          EvPrint [VStr "[PersonaPlex] Shutting down server..."] ::
          EvPoll h None :: trace st) \/
     (exists h, server_process st = Some h /\
        trace st' =
          EvKill h :: EvWait h 10 None :: EvTerminate h ::
          EvPrint [VStr "[PersonaPlex] Shutting down server..."] ::
          EvPoll h None :: trace st)).
Proof.
  intros Hsig. unfold cleanup, bind, get_server_process.
  destruct (server_process st) as [h|] eqn:Hsp.
  2:{ exists st. split; [reflexivity|]. split; [exact Hsp|]. left. auto. }
  rewrite poll_eq.
  destruct (exit_status (procs (step script 0 st)) h) as [c|] eqn:Hex.
  { exists (polled script h st). split; [reflexivity|].
    split; [rewrite server_process_polled; exact Hsp|].
    right. left. exists h, c. split; [reflexivity|].
    rewrite trace_polled, Hex. reflexivity. }
  unfold print, terminate, answer.
  destruct (Hsig (calls (record (EvPrint [VStr "[PersonaPlex] Shutting down server..."])
                          (polled script h st)))) as (T & _ & _).
  rewrite T. clear T.
  set (st2 := record (EvTerminate h) (step script 0 _)).
  unfold wait, answer.
  destruct (Hsig (calls st2)) as (_ & _ & W). rewrite W. clear W.
  destruct (exit_status (procs (step script 0 st2)) h) as [c|] eqn:Hw.
  { eexists. split; [reflexivity|]. split.
    - simpl. exact Hsp.
    - right. right. left. exists h, c. split; [reflexivity|].
      cbn -[step]. unfold st2. cbn -[step]. rewrite Hex. reflexivity. }
  cbn [is_TimeoutExpired]. unfold kill, answer.
  match goal with
  | |- context [r_raise (script (calls ?s)) KKill] =>
      destruct (Hsig (calls s)) as (_ & K & _); rewrite K; clear K
  end.
  eexists. split; [reflexivity|]. split.
  - simpl. exact Hsp.
  - right. right. right. exists h. split; [reflexivity|].
    cbn -[step]. unfold st2. cbn -[step]. rewrite Hex. reflexivity.
Qed.

End Session.

(** ** Every path of the handler

    The triples below walk every path of [handler] once, for any pair of
    predicates [J0] (before the first launch) and [J] (after it) that the
    external calls preserve.  They give at the same time what the
    returned object looks like and where an escaping exception was
    raised. *)

Section Paths.

Variable script : nat -> Resp.
Variable cfg : Config.
Variables J0 J : State -> Prop.

Hypothesis J0_J : forall st, J0 st -> J st.
Hypothesis J0_print : forall p st, J0 st -> J0 (record (EvPrint p) st).
Hypothesis J0_launch :
  forall st, J0 st -> J (state_of (start_personaplex_server script cfg st)).
Hypothesis J_quiet :
  forall e st,
    match e with
    | EvPrint _ | EvSleep _ | EvConnect _ _ _ | EvProgress _ => True
    | _ => False
    end ->
    J st -> J (record e st).
Hypothesis J_step : forall req st, J st -> J (step script req st).
Hypothesis J_poll :
  forall h st, server_process st = Some h -> J st -> J (polled script h st).
Hypothesis J_terminate :
  forall h st, server_process st = Some h -> J st ->
    J (record (EvTerminate h) (step script 0 st)).
Hypothesis J_kill :
  forall h st, server_process st = Some h -> J st ->
    J (record (EvKill h) (step script 0 st)).
Hypothesis J_wait :
  forall h st, server_process st = Some h -> J st ->
    J (state_of (wait script h 10 st)).
Hypothesis J_relaunch :
  forall h st, server_process st = Some h -> J st ->
    J (state_of (start_personaplex_server script cfg
                   (record (EvTerminate h) (step script 0 st)))).


Lemma time_sleep_triple secs sp E O :
  triple (with_handle J sp) (time_sleep script secs) (fun _ => with_handle J sp) E O.
Proof.
  intros st [HJ Hsp]. split; [|exact Hsp].
  apply J_quiet; [exact I|]. apply J_step, HJ.
Qed.

Lemma wait_for_server_loop_triple fuel host port timeout start_time sp :
  triple (with_handle J sp)
    (wait_for_server_loop script fuel host port timeout start_time)
    (fun _ => with_handle J sp)
    (fun e st => with_handle J sp st /\
                 raised_by script KConnect e /\ is_socket_error e = false)
    (with_handle J sp).
Proof.
  induction fuel as [|fuel IH]; intros st HP; cbn [wait_for_server_loop].
  - destruct (now st - start_time <? 1000 * timeout); exact HP.
  - destruct (now st - start_time <? 1000 * timeout); [|exact HP].
    assert (Hagain : forall a,
      match bind (time_sleep script 1)
                 (fun _ => wait_for_server_loop script fuel host port timeout start_time)
                 (record (EvConnect host port a) (step script 0 st)) with
      | Ret _ s => with_handle J sp s
      | Exc e s => with_handle J sp s /\
                   raised_by script KConnect e /\ is_socket_error e = false
      | Out s => with_handle J sp s
      end).
    { intros a.
      apply (triple_bind (with_handle J sp) _ _ (fun _ => with_handle J sp)).
      - apply time_sleep_triple.
      - intros _. exact IH.
      - destruct HP as [HJ Hsp]. split; [|exact Hsp].
        apply J_quiet; [exact I|]. apply J_step, HJ. }
    unfold connect_attempt, answer.
    destruct (r_raise (script (calls st)) KConnect) as [e|] eqn:R.
    + destruct (is_socket_error e) eqn:S; [apply Hagain|].
      split; [|split; [exists (calls st); exact R|exact S]].
      destruct HP as [HJ Hsp]. split; [|exact Hsp].
      apply J_quiet; [exact I|]. apply J_step, HJ.
    + destruct (r_connect (script (calls st)) =? 0); [|apply Hagain].
      destruct HP as [HJ Hsp]. split; [|exact Hsp].
      apply J_quiet; [exact I|]. apply J_step, HJ.
Qed.

Lemma wait_for_server_triple host port timeout sp :
  triple (with_handle J sp) (wait_for_server script host port timeout)
    (fun _ => with_handle J sp)
    (fun e st => with_handle J sp st /\
                 raised_by script KConnect e /\ is_socket_error e = false)
    (with_handle J sp).
Proof.
  intros st HP. unfold wait_for_server, bind, time_time.
  apply wait_for_server_loop_triple, HP.
Qed.

Lemma wait_for_server_from_call host port timeout sp :
  triple (with_handle J sp) (wait_for_server script host port timeout)
    (fun _ => with_handle J sp) (from_call script J) J.
Proof.
  eapply triple_weaken; [apply (wait_for_server_triple host port timeout sp)|..].
  - auto.
  - auto.
  - intros e st ([HJ _] & R & S). split; [exact HJ|].
    exists KConnect. split; [exact R|]. intros _. exact S.
  - intros st [HJ _]. exact HJ.
Qed.

Lemma poll_triple h E O :
  triple (with_handle J (Some h)) (poll script h)
    (fun _ => with_handle J (Some h)) E O.
Proof.
  intros st [HJ Hsp]. rewrite poll_eq. split.
  - apply J_poll; assumption.
  - rewrite server_process_polled. exact Hsp.
Qed.

Lemma set_server_process_same sp st :
  server_process st = sp -> set_server_process sp st = Ret tt st.
Proof. destruct st; simpl. intros ->. reflexivity. Qed.

(** The two ways [start_personaplex_server] ends. *)
Lemma start_outcome st :
  match start_personaplex_server script cfg st with
  | Ret h s => server_process s = Some h
  | Exc e s => raised_by script KPopen e /\ server_process s = server_process st
  | Out _ => False
  end.
Proof.
  unfold start_personaplex_server, bind, popen, answer.
  destruct (r_raise (script (calls st)) KPopen) as [e|] eqn:R.
  - split; [exists (calls st); exact R|reflexivity].
  - reflexivity.
Qed.

Lemma restart_triple h :
  triple (with_handle J (Some h)) (restart script cfg) (fun _ => J) (from_call script J) J.
Proof.
  intros st [HJ Hsp]. unfold restart.
  unfold bind at 1. unfold print.
  set (st1 := record (EvPrint _) st).
  assert (HJ1 : J st1) by (apply J_quiet; [exact I|exact HJ]).
  assert (Hsp1 : server_process st1 = Some h) by exact Hsp.
  unfold bind at 1. unfold bind at 1. unfold get_server_process. rewrite Hsp1.
  pose proof (J_terminate h st1 Hsp1 HJ1) as HJ2.
  pose proof (J_relaunch h st1 Hsp1 HJ1) as HJ3.
  unfold terminate, answer.
  destruct (r_raise (script (calls st1)) KTerminate) as [e|] eqn:R.
  { split; [exact HJ2|]. exists KTerminate.
    split; [exists (calls st1); exact R|discriminate]. }
  set (st2 := record (EvTerminate h) (step script 0 st1)) in *.
  unfold bind at 1.
  pose proof (start_outcome st2) as Ho.
  destruct (start_personaplex_server script cfg st2) as [h' s|e s|s];
    simpl in HJ3.
  - rewrite (bind_Ret _ _ _ _ _ (set_server_process_same (Some h') s Ho)).
    apply (triple_bind (with_handle J (Some h')) _ _ (fun _ => with_handle J (Some h'))).
    + apply wait_for_server_from_call.
    + intros _. apply triple_ret. intros s' [H _]. exact H.
    + split; assumption.
  - destruct Ho as [R' _]. split; [exact HJ3|].
    exists KPopen. split; [exact R'|discriminate].
  - destruct Ho.
Qed.

Lemma monitor_triple fuel :
  triple J (monitor script cfg fuel) (fun _ => J) (from_call script J) J.
Proof.
  induction fuel as [|fuel IH]; intros st HJ; cbn [monitor];
    destruct (server_process st) as [h|] eqn:Hsp; try exact HJ.
  apply (triple_bind (with_handle J (Some h)) _ _ (fun _ => with_handle J (Some h)));
    [apply poll_triple| |split; assumption].
  intros [c|].
  - apply triple_ret. intros s [H _]. exact H.
  - apply (triple_bind _ _ _ (fun _ => with_handle J (Some h)));
      [apply time_sleep_triple|]. intros _.
    apply (triple_bind _ _ _ (fun _ => with_handle J (Some h)));
      [apply wait_for_server_from_call|]. intros healthy.
    apply (triple_bind _ _ _ (fun _ => J)); [|intros _; exact IH].
    destruct healthy.
    + apply triple_ret. intros s [H _]. exact H.
    + apply restart_triple.
Qed.

Lemma monitor_and_report_triple fuel sid :
  triple J (monitor_and_report script cfg fuel sid)
    (fun v st => J st /\ terminal_result v) (from_call script J) J.
Proof.
  unfold monitor_and_report.
  apply (triple_bind _ _ _ (fun _ => J)); [apply monitor_triple|]. intros _.
  intros st HJ. unfold bind, get_server_process, get_returncode, ret.
  destruct (server_process st); (split; [exact HJ|]); left; eauto.
Qed.

Lemma guarded_monitor_triple fuel sid :
  triple J (guarded_monitor script cfg fuel sid)
    (fun v st => J st /\ terminal_result v)
    (fun e st => (from_call script J) e st /\ is_Exception e = false) J.
Proof.
  unfold guarded_monitor.
  apply (triple_try_except _ _ _ _ _ (from_call script J)).
  - apply monitor_and_report_triple.
  - intros e _. apply triple_ret. intros st [HJ _].
    split; [exact HJ|]. right; left; eauto.
  - intros e st C H. split; assumption.
Qed.

Lemma cleanup_triple :
  triple J (cleanup script) (fun _ => J) (from_signal script J) J.
Proof.
  intros st HJ. unfold cleanup.
  unfold bind at 1. unfold get_server_process.
  destruct (server_process st) as [h|] eqn:Hsp; [|exact HJ].
  rewrite (bind_Ret _ _ _ _ _ (poll_eq script h st)).
  pose proof (J_poll h st Hsp HJ) as HJ1.
  destruct (exit_status (procs (step script 0 st)) h); [exact HJ1|].
  unfold bind at 1. unfold print.
  set (st1 := record (EvPrint _) (polled script h st)).
  assert (HJ2 : J st1) by (apply J_quiet; [exact I|exact HJ1]).
  assert (Hsp1 : server_process st1 = Some h) by exact Hsp.
  pose proof (J_terminate h st1 Hsp1 HJ2) as HJ3.
  unfold bind, terminate, answer.
  destruct (r_raise (script (calls st1)) KTerminate) as [e|] eqn:R.
  { split; [exact HJ3|]. left. exists (calls st1). exact R. }
  set (st2 := record (EvTerminate h) (step script 0 st1)) in *.
  assert (Hsp2 : server_process st2 = Some h) by exact Hsp.
  pose proof (J_wait h st2 Hsp2 HJ3) as HJ4.
  assert (Hw : match wait script h 10 st2 with
               | Exc e s =>
                   server_process s = Some h /\
                   (is_TimeoutExpired e = false -> raised_by script KWait e)
               | _ => True
               end).
  { unfold wait, answer.
    destruct (r_raise (script (calls st2)) KWait) as [e|] eqn:R'.
    - split; [exact Hsp|]. intros _. exists (calls st2). exact R'.
    - destruct (exit_status (procs (step script 0 st2)) h); [exact I|].
      split; [exact Hsp|]. discriminate. }
  destruct (wait script h 10 st2) as [c s|e s|s]; simpl in HJ4; try exact HJ4.
  destruct Hw as [Hsp3 Hw].
  destruct (is_TimeoutExpired e).
  - pose proof (J_kill h s Hsp3 HJ4) as HJ5.
    unfold kill, answer.
    destruct (r_raise (script (calls s)) KKill) as [e'|] eqn:R'; [|exact HJ5].
    split; [exact HJ5|]. right; right. exists (calls s). exact R'.
  - split; [exact HJ4|]. right; left. apply Hw. reflexivity.
Qed.

Lemma from_signal_monitoring e st : (from_signal script J) e st -> (from_monitoring script J) e st.
Proof.
  intros [HJ [[i R]|[[i R]|[i R]]]]; (split; [exact HJ|]);
    eexists i, _; (split; [exact R|split; discriminate]).
Qed.

Lemma monitoring_triple fuel sid :
  triple J (monitoring script cfg fuel sid)
    (fun v st => J st /\ terminal_result v) (from_monitoring script J) J.
Proof.
  unfold monitoring.
  apply (triple_finally _ _ _ _
           (fun v st => J st /\ terminal_result v) _
           (fun e st => (from_call script J) e st /\ is_Exception e = false)).
  - apply guarded_monitor_triple.
  - intros v st [HJ Hv]. pose proof (cleanup_triple st HJ) as H.
    destruct (cleanup script st); auto using from_signal_monitoring.
  - intros e st [[HJ (k & [i R] & Hk)] C]. pose proof (cleanup_triple st HJ) as H.
    destruct (cleanup script st) as [u s|e' s|s]; auto using from_signal_monitoring.
    split; [exact H|]. exists i, k. split; [exact R|]. split; [intros _; exact C|exact Hk].
Qed.

Lemma read_session_id_cases job :
  (exists sid, forall st, read_session_id job st = Ret sid st) \/
  (exists e, forall st, read_session_id job st = Exc e st).
Proof.
  unfold read_session_id.
  destruct (dict_get job "input") as [[| | |d]|]; try (right; eexists; reflexivity);
    (destruct (dict_get job "id"); [left|right]; eexists; reflexivity).
Qed.






End Paths.

(** ** Single ownership of the child *)

Section Ownership.

Variable script : nat -> Resp.
Variable cfg : Config.
Variable st0 : State.

Lemma launches_quiet e r :
  match e with EvPopen _ => False | _ => True end ->
  launches (e :: r) = launches r /\ current (e :: r) = current r.
Proof. destruct e; simpl; auto; contradiction. Qed.

Lemma session_events_quiet e st st' new :
  match e with
  | EvPrint _ | EvSleep _ | EvConnect _ _ _ | EvProgress _ | EvPopenFailed _ => True
  | _ => False
  end ->
  trace st' = e :: trace st ->
  List.length (procs st') = List.length (procs st) ->
  session_events st0 st new -> session_events st0 st' (e :: new).
Proof.
  intros He Ht Hl (T & O & L). unfold session_events.
  split; [rewrite Ht, T; reflexivity|]. split.
  - simpl. split; [exact O|]. destruct e; try contradiction; exact I.
  - rewrite Hl, L. destruct e; try contradiction; reflexivity.
Qed.

Lemma owning_quiet e st st' :
  match e with
  | EvPrint _ | EvSleep _ | EvConnect _ _ _ | EvProgress _ | EvPopenFailed _ => True
  | _ => False
  end ->
  trace st' = e :: trace st ->
  server_process st' = server_process st ->
  List.length (procs st') = List.length (procs st) ->
  owning st0 st -> owning st0 st'.
Proof.
  intros He Ht Hsp Hl (new & h & S & C & Sp).
  exists (e :: new), h.
  split; [apply (session_events_quiet e st); assumption|].
  split; [|congruence].
  destruct e; try contradiction; exact C.
Qed.

Lemma not_launched_quiet e st st' :
  match e with
  | EvPrint _ | EvSleep _ | EvConnect _ _ _ | EvProgress _ | EvPopenFailed _ => True
  | _ => False
  end ->
  trace st' = e :: trace st ->
  server_process st' = server_process st ->
  List.length (procs st') = List.length (procs st) ->
  not_launched st0 st -> not_launched st0 st'.
Proof.
  intros He Ht Hsp Hl (new & S & C & Sp).
  exists (e :: new).
  split; [apply (session_events_quiet e st); assumption|].
  split; [|congruence].
  destruct e; try contradiction; exact C.
Qed.

Lemma owning_signal e h st st' :
  match e with
  | EvPoll h' _ | EvTerminate h' | EvWait h' _ _ | EvKill h' => h' = h
  | _ => False
  end ->
  trace st' = e :: trace st ->
  server_process st' = server_process st ->
  List.length (procs st') = List.length (procs st) ->
  server_process st = Some h ->
  owning st0 st -> owning st0 st'.
Proof.
  intros He Ht Hsp Hl Hh (new & h' & (T & O & L) & C & Sp).
  assert (h' = h) by congruence. subst h'.
  exists (e :: new), h. split; [|split; [|congruence]].
  - split; [rewrite Ht, T; reflexivity|]. split.
    + simpl. split; [exact O|]. destruct e; try contradiction; subst; exact C.
    + rewrite Hl, L. destruct e; try contradiction; reflexivity.
  - destruct e; try contradiction; exact C.
Qed.

Lemma owning_same_trace st st' :
  trace st' = trace st ->
  server_process st' = server_process st ->
  List.length (procs st') = List.length (procs st) ->
  owning st0 st -> owning st0 st'.
Proof.
  intros Ht Hsp Hl (new & h & (T & O & L) & C & Sp).
  exists new, h. unfold session_events. rewrite Ht, Hl, Hsp. auto.
Qed.

Lemma owning_step req st : owning st0 st -> owning st0 (step script req st).
Proof.
  apply owning_same_trace; try reflexivity.
  simpl. apply length_apply_exits.
Qed.

Lemma owning_record_quiet e st :
  match e with
  | EvPrint _ | EvSleep _ | EvConnect _ _ _ | EvProgress _ => True
  | _ => False
  end ->
  owning st0 st -> owning st0 (record e st).
Proof.
  intros He. apply (owning_quiet e); auto.
  destruct e; auto.
Qed.

Lemma owning_polled h st :
  server_process st = Some h -> owning st0 st -> owning st0 (polled script h st).
Proof.
  intros Hsp H.
  apply (owning_signal
           (EvPoll h (exit_status (procs (step script 0 st)) h)) h st);
    auto.
  unfold polled, poll; simpl.
  rewrite length_update_nth. apply length_apply_exits.
Qed.

Lemma owning_terminate h st :
  server_process st = Some h ->
  owning st0 st -> owning st0 (record (EvTerminate h) (step script 0 st)).
Proof.
  intros Hsp H. apply (owning_signal (EvTerminate h) h st); auto.
  simpl. apply length_apply_exits.
Qed.

Lemma owning_kill h st :
  server_process st = Some h ->
  owning st0 st -> owning st0 (record (EvKill h) (step script 0 st)).
Proof.
  intros Hsp H. apply (owning_signal (EvKill h) h st); auto.
  simpl. apply length_apply_exits.
Qed.

Lemma owning_wait h st :
  server_process st = Some h ->
  owning st0 st -> owning st0 (state_of (wait script h 10 st)).
Proof.
  intros Hsp H. unfold wait, answer.
  destruct (r_raise (script (calls st)) KWait).
  - apply (owning_signal (EvWait h 10 None) h st); auto.
    simpl. apply length_apply_exits.
  - destruct (exit_status (procs (step script 0 st)) h) as [c|].
    + apply (owning_signal (EvWait h 10 (Some c)) h st); auto.
      simpl. rewrite length_update_nth. apply length_apply_exits.
    + apply (owning_signal (EvWait h 10 None) h st); auto.
      simpl. apply length_apply_exits.
Qed.

(** A launch keeps the invariant when the session has no handle yet or
    has just sent [terminate] to the one it has. *)
Lemma session_events_start st new :
  session_events st0 st new ->
  match current new with
  | None => True
  | Some h0 => exists r, new = EvTerminate h0 :: r
  end ->
  match start_personaplex_server script cfg st with
  | Ret h st' =>
      session_events st0 st' (EvPopen h :: new) /\ server_process st' = Some h
  | Exc e st' =>
      session_events st0 st' (EvPopenFailed e :: new) /\
      server_process st' = server_process st
  | Out _ => False
  end.
Proof.
  intros (T & O & L) Hpre.
  unfold start_personaplex_server, bind, popen, answer.
  destruct (r_raise (script (calls st)) KPopen) as [e|].
  - split; [|reflexivity].
    apply (session_events_quiet (EvPopenFailed e) st);
      [exact I|reflexivity|simpl; apply length_apply_exits|
       repeat split; assumption].
  - cbn -[step]. split; [|reflexivity].
    unfold session_events, step; simpl.
    rewrite length_app, !length_apply_exits. simpl.
    split; [rewrite T; reflexivity|].
    split; [|rewrite L; lia].
    split; [exact O|]. split; [exact L|exact Hpre].
Qed.

Lemma not_launched_start st :
  not_launched st0 st ->
  session_owner st0 (state_of (start_personaplex_server script cfg st)) /\
  match start_personaplex_server script cfg st with
  | Ret _ st' => owning st0 st'
  | _ => True
  end.
Proof.
  intros (new & S & C & Sp).
  pose proof (session_events_start st new S) as H. rewrite C in H.
  specialize (H I).
  destruct (start_personaplex_server script cfg st) as [h s|e s|s];
    [| |destruct H]; destruct H as [S' Sp']; simpl.
  - assert (Ow : owning st0 s) by (exists (EvPopen h :: new), h; auto).
    split; [right; exact Ow|exact Ow].
  - split; [|exact I]. left. exists (EvPopenFailed e :: new).
    split; [exact S'|]. split; [exact C|congruence].
Qed.

Lemma owning_relaunch h st :
  server_process st = Some h ->
  owning st0 st ->
  owning st0
    (state_of (start_personaplex_server script cfg
                 (record (EvTerminate h) (step script 0 st)))).
Proof.
  intros Hsp Ho.
  pose proof (owning_terminate h st Hsp Ho) as (new & h' & S & C & Sp).
  assert (Hh : h' = h) by (simpl in Sp; congruence). subst h'.
  assert (Hnew : exists r, new = EvTerminate h :: r).
  { destruct Ho as (new0 & h0 & (T0 & _) & _).
    destruct S as (T & _). simpl in T. rewrite T0 in T.
    exists new0.
    change (EvTerminate h :: new0 ++ trace st0)%list
      with ((EvTerminate h :: new0) ++ trace st0)%list in T.
    apply app_inv_tail in T. symmetry. exact T. }
  pose proof (session_events_start _ new S) as H. rewrite C in H.
  specialize (H Hnew).
  destruct (start_personaplex_server script cfg
              (record (EvTerminate h) (step script 0 st))) as [h1 s|e s|s];
    [| |destruct H]; destruct H as [S' Sp']; simpl.
  - exists (EvPopen h1 :: new), h1. auto.
  - exists (EvPopenFailed e :: new), h. split; [exact S'|].
    split; [exact C|]. rewrite Sp'. exact Sp.
Qed.

End Ownership.

(** ** Following one path *)

Section Runs.

Variable script : nat -> Resp.
Variable cfg : Config.

Lemma env_le_slept secs st : 0 <= secs -> env_le script st (slept script secs st).
Proof. intros H. apply env_le_record, env_le_step. lia. Qed.

Lemma start_ok st :
  r_raise (script (calls st)) KPopen = None ->
  start_personaplex_server script cfg st = Ret (List.length (procs st)) (launched script cfg st) /\
  server_process (launched script cfg st) = Some (List.length (procs st)) /\
  trace (launched script cfg st) = EvPopen (List.length (procs st)) :: trace st /\
  now st <= now (launched script cfg st) /\
  exit_status (procs (launched script cfg st)) (List.length (procs st)) = None /\
  ((forall i, r_exits (script i) = []) ->
   forall k, (k < List.length (procs st))%nat ->
             exit_status (procs (launched script cfg st)) k = exit_status (procs st) k).
Proof.
  intros R. unfold launched, start_personaplex_server, bind, popen, answer.
  rewrite R. cbn -[step]. unfold step; simpl.
  rewrite !length_apply_exits.
  split; [reflexivity|]. split; [reflexivity|]. split; [reflexivity|].
  split; [lia|]. split.
  - rewrite <- (length_apply_exits (r_exits (script (calls st))) (procs st)).
    apply exit_status_app_new.
  - intros Hq k Hk. rewrite Hq. simpl.
    apply exit_status_app_old. exact Hk.
Qed.


(** The first lines of [restart], up to the launch. *)
Lemma restart_terminated st h :
  server_process st = Some h ->
  r_raise (script (calls st)) KTerminate = None ->
  restart script cfg st =
  bind (start_personaplex_server script cfg)
       (fun h' =>
          set_server_process (Some h') ;;
          _ <- wait_for_server script "localhost" (personaplex_port cfg) 60 ;;
          ret tt)
       (terminated script h
          (printed [VStr "[PersonaPlex] Server health check failed, restarting..."] st)).
Proof.
  intros Hsp R. unfold restart.
  unfold bind at 1. unfold print.
  unfold bind at 1. unfold bind at 1. unfold get_server_process.
  cbn [server_process record]. rewrite Hsp.
  unfold terminate, answer. cbn [calls record]. rewrite R. reflexivity.
Qed.

(** One round of the loop whose health check fails. *)
Lemma monitor_unhealthy fuel st h st3 :
  server_process st = Some h ->
  exit_status (procs (step script 0 st)) h = None ->
  wait_for_server script "localhost" (personaplex_port cfg) 5
    (slept script 5 (polled script h st)) = Ret false st3 ->
  monitor script cfg (S fuel) st =
  bind (restart script cfg) (fun _ => monitor script cfg fuel) st3.
Proof.
  intros Hsp Hex Hw. cbn [monitor]. rewrite Hsp.
  rewrite (bind_Ret _ _ _ _ _ (poll_eq script h st)), Hex.
  unfold bind at 1. unfold time_sleep. fold (slept script 5 (polled script h st)).
  unfold bind at 1. rewrite Hw. reflexivity.
Qed.

Lemma launches_wait_trace host port b fails tr :
  launches (wait_trace host port b fails ++ tr) = launches tr.
Proof.
  unfold wait_trace. rewrite <- app_assoc.
  assert (H : launches (flat_map (failed_round host port) fails ++ tr) = launches tr).
  { induction fails as [|a fails IH]; simpl; auto. }
  destruct b; simpl; exact H.
Qed.

Lemma unreachable_socket_errors_only :
  unreachable script -> socket_errors_only script.
Proof.
  intros H i e R. destruct (H i) as (_ & N & _). rewrite N in R. discriminate.
Qed.

Lemma unreachable_never_accepts :
  unreachable script -> forall i, ~ accepts (script i).
Proof.
  intros H i [_ C]. destruct (H i) as (_ & _ & N). contradiction.
Qed.

(** [wait_for_server] leaves the global alone, however it ends. *)
Lemma wait_for_server_global host port timeout st :
  server_process (state_of (wait_for_server script host port timeout st)) =
  server_process st.
Proof.
  pose proof (wait_for_server_triple script (fun _ => True)
                (fun _ _ _ _ => I) (fun _ _ _ => I)
                host port timeout (server_process st) st (conj I eq_refl)) as H.
  destruct (wait_for_server script host port timeout st) as [b s|e s|s];
    simpl; [destruct H as [_ H]|destruct H as [[_ H] _]|destruct H as [_ H]];
    exact H.
Qed.


(** An accepted connect attempt ends the wait at once. *)
Lemma wait_for_server_accepted host port timeout st :
  0 < timeout ->
  accepts (script (calls st)) ->
  wait_for_server script host port timeout st =
  Ret true (record (EvConnect host port (Returned 0)) (step script 0 st)).
Proof.
  intros Ht [R C]. unfold wait_for_server, bind, time_time.
  destruct (Z.to_nat timeout) as [|n] eqn:E; [lia|].
  cbn [wait_for_server_loop].
  replace (now st - now st <? 1000 * timeout) with true
    by (symmetry; apply Z.ltb_lt; lia).
  unfold connect_attempt, answer. rewrite R, C. reflexivity.
Qed.

(** In a healthy world the loop goes on for as long as it is given
    fuel. *)
Lemma monitor_healthy n :
  healthy script ->
  forall st h,
    server_process st = Some h ->
    exit_status (procs st) h = None ->
    exists st', monitor script cfg n st = Out st'.
Proof.
  intros Hh.
  assert (Hq : forall i, r_exits (script i) = []) by (intros i; apply (Hh i)).
  induction n as [|n IH]; intros st h Hsp Hex.
  - exists st. cbn [monitor]. rewrite Hsp. reflexivity.
  - assert (Hex1 : exit_status (procs (step script 0 st)) h = None).
    { destruct (env_le_step script 0 st) as (_ & _ & _ & _ & P); [lia|].
      rewrite P; assumption. }
    cbn [monitor]. rewrite Hsp.
    rewrite (bind_Ret _ _ _ _ _ (poll_eq script h st)), Hex1.
    unfold bind at 1. unfold time_sleep. fold (slept script 5 (polled script h st)).
    rewrite (bind_Ret _ _ _ _ _
               (wait_for_server_accepted "localhost" (personaplex_port cfg) 5
                  (slept script 5 (polled script h st)) eq_refl
                  (conj (proj1 (proj2 (Hh _)) KConnect) (proj2 (proj2 (Hh _)))))).
    unfold bind at 1. unfold ret.
    apply (IH _ h).
    + exact Hsp.
    + assert (LE : env_le script st
                     (record (EvConnect "localhost" (personaplex_port cfg) (Returned 0))
                        (step script 0 (slept script 5 (polled script h st))))).
      { apply env_le_record.
        apply env_le_trans with (slept script 5 (polled script h st));
          [|apply env_le_step; lia].
        apply env_le_trans with (polled script h st);
          [apply env_le_polled|apply env_le_slept; lia]. }
      destruct LE as (_ & _ & _ & _ & P). rewrite (P Hq). exact Hex.
Qed.

(** In a healthy world a session never returns: whatever the fuel, the
    handler is still in its loop. *)
Lemma healthy_session_does_not_return fuel job sid st :
  healthy script ->
  (forall s, read_session_id job s = Ret sid s) ->
  exists st', handler script cfg fuel job st = Out st'.
Proof.
  intros Hh Hr. unfold handler.
  rewrite (bind_Ret _ _ _ _ _ (Hr st)).
  unfold bind at 1. unfold print.
  set (st1 := record (EvPrint _) st).
  destruct (start_ok st1) as (Es & Sps & _ & _ & Exs & _);
    [apply (proj1 (proj2 (Hh _)))|].
  rewrite Es.
  rewrite (bind_Ret _ _ _ _ _ (set_server_process_same _ _ Sps)).
  unfold bind at 1. unfold print.
  set (st2 := record (EvPrint _) (launched script cfg st1)).
  rewrite (bind_Ret _ _ _ _ _
             (wait_for_server_accepted "localhost" (personaplex_port cfg) 120
                st2 eq_refl
                (conj (proj1 (proj2 (Hh _)) KConnect) (proj2 (proj2 (Hh _)))))).
  cbn [negb].
  unfold bind at 1. unfold print.
  unfold bind at 1. unfold progress_update, answer.
  rewrite (proj1 (proj2 (Hh _))).
  unfold bind at 1. unfold bind at 1.
  match goal with
  | |- exists st', monitoring script cfg fuel sid ?s = _ =>
      destruct (monitor_healthy fuel Hh s (List.length (procs st1))) as [st' Em]
  end.
  - exact Sps.
  - assert (Hq : forall i, r_exits (script i) = []) by (intros i; apply (Hh i)).
    cbn [procs record step]. rewrite !Hq. cbn [apply_exits].
    exact Exs.
  - exists st'. unfold monitoring, finally_, guarded_monitor, try_except_Exception,
      monitor_and_report.
    rewrite (bind_Out _ _ _ _ Em). reflexivity.
Qed.

End Runs.

(** ** [wait_for_server], whatever the attempts raise *)

Lemma wait_for_server_loop_general script fuel host port timeout start_time st :
  1000 * timeout - (now st - start_time) <= 1000 * Z.of_nat fuel ->
  exists fails,
    Forall attempt_failed fails /\
    (List.length fails <= fuel)%nat /\
    match wait_for_server_loop script fuel host port timeout start_time st with
    | Ret b st' =>
        trace st' = (wait_trace host port b fails ++ trace st)%list /\
        (b = false -> start_time + 1000 * timeout <= now st') /\
        ((forall i, ~ accepts (script i)) -> b = false)
    | Exc e st' =>
        is_socket_error e = false /\
        trace st' =
          (EvConnect host port (Raised e) ::
           flat_map (failed_round host port) fails ++ trace st)%list
    | Out _ => False
    end.
Proof.
  revert st. induction fuel as [|fuel IH]; intros st Hfuel;
    cbn [wait_for_server_loop];
    destruct (now st - start_time <? 1000 * timeout) eqn:C.
  - apply Z.ltb_lt in C. lia.
  - apply Z.ltb_ge in C. exists []. split; [constructor|]. split; [simpl; lia|].
    split; [reflexivity|]. split; [intros _; lia|reflexivity].
  - apply Z.ltb_lt in C.
    (* a failed attempt, the sleep, and the rest of the loop *)
    assert (Hagain : forall a,
      attempt_failed a ->
      exists fails,
        Forall attempt_failed fails /\
        (List.length fails <= S fuel)%nat /\
        match bind (time_sleep script 1)
                   (fun _ => wait_for_server_loop script fuel host port timeout start_time)
                   (record (EvConnect host port a) (step script 0 st)) with
        | Ret b st' =>
            trace st' = (wait_trace host port b fails ++ trace st)%list /\
            (b = false -> start_time + 1000 * timeout <= now st') /\
            ((forall i, ~ accepts (script i)) -> b = false)
        | Exc e st' =>
            is_socket_error e = false /\
            trace st' =
              (EvConnect host port (Raised e) ::
               flat_map (failed_round host port) fails ++ trace st)%list
        | Out _ => False
        end).
    { intros a Ha. unfold bind, time_sleep.
      set (st2 := record (EvSleep 1)
                    (step script (1000 * 1)
                       (record (EvConnect host port a) (step script 0 st)))).
      assert (Hnow : now st + 1000 <= now st2).
      { unfold st2. cbn [now record step]. lia. }
      destruct (IH st2) as (fails & F & L & H); [lia|].
      exists (fails ++ [a])%list.
      split; [apply Forall_app; split; auto|].
      split; [rewrite length_app; simpl; lia|].
      destruct (wait_for_server_loop script fuel host port timeout start_time st2)
        as [b st'|e st'|st']; [| |exact H].
      - destruct H as (T & TO & NA). split; [|split; assumption].
        rewrite T. unfold wait_trace. rewrite flat_map_failed_round_snoc.
        unfold st2. cbn [trace record step]. rewrite <- !app_assoc. reflexivity.
      - destruct H as (Hs & T). split; [exact Hs|].
        rewrite T, flat_map_failed_round_snoc.
        unfold st2. cbn [trace record step]. rewrite <- !app_assoc. reflexivity. }
    unfold connect_attempt, answer.
    destruct (r_raise (script (calls st)) KConnect) as [e|] eqn:R.
    + destruct (is_socket_error e) eqn:Hs; [apply Hagain; exact Hs|].
      exists []. split; [constructor|]. split; [simpl; lia|].
      split; [exact Hs|reflexivity].
    + destruct (r_connect (script (calls st)) =? 0) eqn:Z0.
      * apply Z.eqb_eq in Z0. rewrite Z0.
        exists []. split; [constructor|]. split; [simpl; lia|].
        split; [reflexivity|]. split; [discriminate|].
        intros NA. exfalso. apply (NA (calls st)). split; assumption.
      * apply Z.eqb_neq in Z0. apply Hagain. exact Z0.
  - apply Z.ltb_ge in C. exists []. split; [constructor|]. split; [simpl; lia|].
    split; [reflexivity|]. split; [intros _; lia|reflexivity].
Qed.

(** * The claims *)

(** ** How often the server is restarted *)

(** C1, as the code has it.  Nothing counts the restarts: while the child
    stays alive and the port stays closed, every round of the monitoring
    loop runs the restart sequence again, so [n] rounds launch [n]
    replacements, for every [n]. *)
Theorem every_failed_check_restarts script cfg n st h :
  unreachable script ->
  server_process st = Some h ->
  exit_status (procs st) h = None ->
  exists st',
    monitor script cfg n st = Out st' /\
    launches (trace st') = (launches (trace st) + n)%nat.
Proof.
  intros Hu. revert st h.
  assert (Hq : forall i, r_exits (script i) = []) by (intros i; apply (Hu i)).
  pose proof (unreachable_socket_errors_only script Hu) as Hsock.
  pose proof (unreachable_never_accepts script Hu) as Hna.
  induction n as [|n IH]; intros st h Hsp Hex.
  - exists st. cbn [monitor]. rewrite Hsp. split; [reflexivity|lia].
  - (* the health check fails *)
    assert (Hex1 : exit_status (procs (step script 0 st)) h = None).
    { destruct (env_le_step script 0 st) as (_ & _ & _ & _ & P); [lia|].
      rewrite P; assumption. }
    destruct (wait_for_server_total script "localhost" (personaplex_port cfg) 5
                (slept script 5 (polled script h st)) Hsock)
      as (b & fails & st3 & Ew & _ & _ & Tw & _ & Nw & LEw).
    rewrite (Nw Hna) in *. clear Nw.
    rewrite (monitor_unhealthy script cfg n st h st3 Hsp Hex1 Ew).
    assert (LE3 : env_le script st st3).
    { apply env_le_trans with (slept script 5 (polled script h st)); [|exact LEw].
      apply env_le_trans with (polled script h st).
      - apply env_le_polled.
      - apply env_le_slept. lia. }
    assert (Hsp3 : server_process st3 = Some h).
    { destruct LE3 as (P & _). congruence. }
    (* the restart: terminate, launch, wait *)
    unfold bind at 1.
    rewrite (restart_terminated script cfg st3 h Hsp3) by apply (Hu _).
    set (st4 := terminated script h (printed _ st3)).
    destruct (start_ok script cfg st4) as (Es & Sps & Ts & _ & Exs & _);
      [apply (Hu _)|].
    rewrite (bind_Ret _ _ _ _ _ Es).
    rewrite (bind_Ret _ _ _ _ _ (set_server_process_same _ _ Sps)).
    destruct (wait_for_server_total script "localhost" (personaplex_port cfg) 60
                (launched script cfg st4) Hsock)
      as (b' & fails' & st5 & Ew' & _ & _ & Tw' & _ & _ & LEw').
    rewrite (bind_Ret _ _ _ _ _ Ew'). unfold ret.
    destruct LEw' as (P1 & _ & _ & _ & P5).
    (* the next round starts with the replacement, alive *)
    destruct (IH st5 (List.length (procs st4))) as (st' & Em & Lm).
    + congruence.
    + rewrite (P5 Hq). exact Exs.
    + exists st'. split; [exact Em|].
      rewrite Lm, Tw', launches_wait_trace, Ts. cbn [launches].
      unfold st4, terminated, printed. cbn [trace record step launches].
      rewrite Tw, launches_wait_trace.
      unfold slept. cbn [trace record step launches].
      rewrite trace_polled. cbn [launches]. lia.
Qed.

Lemma every_failed_check_restarts_witness :
  exists st',
    monitor always_refusing default_config 2 one_child = Out st' /\
    launches (trace st') = (launches (trace one_child) + 2)%nat.
Proof.
  apply (every_failed_check_restarts always_refusing default_config 2 one_child 0).
  - intros i. repeat split. discriminate.
  - reflexivity.
  - reflexivity.
Defined.

(** C1 as stated fails: in one session, two health checks fail and the
    restart sequence runs twice (three launches in all) before the
    session ends. *)
Lemma two_restarts_in_one_session :
  exists st',
    handler never_healthy default_config 10 job1 (initial_state 0) =
      Ret (stopped_result (VInt 0) (VStr "s1")) st' /\
    launches (trace st') = 3%nat /\
    count_occ Nat.eq_dec
      (map (fun e => match e with EvTerminate _ => 1%nat | _ => 0%nat end)
           (trace st')) 1%nat = 2%nat.
Proof. eexists. repeat split; vm_compute; reflexivity. Qed.

(** ** How long a restart waits *)

(** C2, as the code has it.  The readiness wait of a restart is
    [wait_for_server] with a timeout of 60 seconds, half the 120 of the
    first wait: the restart is the specification's with 60 for the
    startup timeout, it makes at most 60 connect attempts, and when none
    is accepted it gives up once 60 seconds have gone by. *)
Theorem restart_waits_sixty_seconds script cfg st h :
  socket_errors_only script ->
  server_process st = Some h ->
  r_raise (script (calls st)) KTerminate = None ->
  r_raise (script (S (calls st))) KPopen = None ->
  restart script cfg st = restart_spec script cfg 60 st /\
  exists b fails st',
    restart script cfg st = Ret tt st' /\
    Forall attempt_failed fails /\
    Z.of_nat (List.length fails) <= 60 /\
    trace st' =
      (wait_trace "localhost" (personaplex_port cfg) b fails ++
       EvPopen (List.length (procs st)) :: EvTerminate h ::
       EvPrint [VStr "[PersonaPlex] Server health check failed, restarting..."] ::
       trace st)%list /\
    (b = false -> now st + 60000 <= now st') /\
    ((forall i, ~ accepts (script i)) -> b = false).
Proof.
  intros Hsock Hsp Ht Hp. split; [reflexivity|].
  rewrite (restart_terminated script cfg st h Hsp Ht).
  set (st4 := terminated script h (printed _ st)).
  destruct (start_ok script cfg st4 Hp) as (Es & Sps & Ts & Ns & _ & _).
  rewrite (bind_Ret _ _ _ _ _ Es).
  rewrite (bind_Ret _ _ _ _ _ (set_server_process_same _ _ Sps)).
  destruct (wait_for_server_total script "localhost" (personaplex_port cfg) 60
              (launched script cfg st4) Hsock)
    as (b & fails & st' & Ew & F & L & Tw & TO & Nw & _).
  rewrite (bind_Ret _ _ _ _ _ Ew). unfold ret.
  assert (Hl : List.length (procs st4) = List.length (procs st)).
  { unfold st4, terminated, printed, step; simpl. apply length_apply_exits. }
  assert (Hn : now st <= now st4).
  { unfold st4, terminated, printed, step; simpl. lia. }
  exists b, fails, st'. split; [reflexivity|]. split; [exact F|].
  split; [exact L|]. split.
  - rewrite Tw, Ts, Hl. reflexivity.
  - split; [|exact Nw]. intros Hb. specialize (TO Hb). lia.
Qed.

Lemma restart_waits_sixty_seconds_witness :
  restart always_refusing default_config one_child =
    restart_spec always_refusing default_config 60 one_child /\
  exists b fails st',
    restart always_refusing default_config one_child = Ret tt st' /\
    Forall attempt_failed fails /\
    Z.of_nat (List.length fails) <= 60 /\
    trace st' =
      (wait_trace "localhost" 8998 b fails ++
       EvPopen 1 :: EvTerminate 0 ::
       EvPrint [VStr "[PersonaPlex] Server health check failed, restarting..."] ::
       [])%list /\
    (b = false -> 0 + 60000 <= now st') /\
    ((forall i, ~ accepts (always_refusing i)) -> b = false).
Proof.
  apply (restart_waits_sixty_seconds always_refusing default_config one_child 0).
  - intros i e R. discriminate R.
  - reflexivity.
  - reflexivity.
  - reflexivity.
Defined.

(** C2 as stated fails.  With a port that stays closed, the first wait of
    the handler lasts its 120 seconds, the wait of a restart lasts 60 and
    makes 60 attempts, where the restart of the specification, given the
    original 120, would last 120 and make 120. *)
Lemma restart_wait_is_shorter_than_startup_wait :
  now (state_of (handler always_refusing default_config 10 job1 (initial_state 0)))
    = 120000 /\
  now (state_of (restart always_refusing default_config one_child)) = 60000 /\
  connects (trace (state_of (restart always_refusing default_config one_child)))
    = 60%nat /\
  now (state_of (restart_spec always_refusing default_config 120 one_child))
    = 120000 /\
  connects (trace (state_of (restart_spec always_refusing default_config 120 one_child)))
    = 120%nat /\
  restart always_refusing default_config one_child <>
    restart_spec always_refusing default_config 120 one_child.
Proof.
  repeat split; try (vm_compute; reflexivity).
  intros H. apply (f_equal (fun r => now (state_of r))) in H.
  vm_compute in H. discriminate H.
Qed.

(** ** One child at a time *)

(** C3.  The code does not keep this.  The health check fails once; the
    restart calls [terminate] on the old child and launches the
    replacement at once, without the [wait] and [kill] the [finally]
    block uses.  The old child ignores the signal: when the loop is about
    to poll again two children are alive, and the global holds only the
    replacement. *)
Lemma two_children_alive :
  exists st' tr,
    handler deaf_child default_config 1 job1 (initial_state 0) = Out st' /\
    server_process st' = Some 1%nat /\
    List.length (alive (procs st')) = 2%nat /\
    trace st' =
      EvConnect "localhost" 8998 (Returned 0) :: EvPopen 1 :: EvTerminate 0 :: tr.
Proof. do 2 eexists. repeat split; vm_compute; reflexivity. Qed.

(** In the same world the session ends when the replacement exits: the
    handler returns, and the first child is still alive, with no [wait]
    and no [kill] ever sent to it. *)
Example old_child_is_left_behind :
  exists st',
    handler deaf_child_then_exit default_config 10 job1 (initial_state 0) =
      Ret (stopped_result (VInt 0) (VStr "s1")) st' /\
    exit_status (procs st') 0 = None /\
    existsb (fun e => match e with
                      | EvWait 0 _ _ | EvKill 0 => true
                      | _ => false
                      end) (trace st') = false.
Proof.
  eexists. split; [vm_compute; reflexivity|].
  split; vm_compute; reflexivity.
Qed.

(** ** [wait_for_server] *)

(** C4, as the code has it.  For every timeout and in every world,
    [wait_for_server] ends, after a run of failed attempts (refused, or
    raising [socket.error]), each swallowed and followed by
    [time.sleep(1)], at most [timeout] of them.  It returns [True]
    exactly when the next attempt is the first to succeed, and returns
    there; it returns [False] only once [timeout] seconds have gone by,
    and never returns [True] when no attempt is accepted.  The one other
    way it ends is an attempt that raises something else than a
    [socket.error]: that exception leaves the function at once. *)
Theorem wait_for_server_swallows_socket_errors script host port timeout st :
  exists fails,
    Forall attempt_failed fails /\
    Z.of_nat (List.length fails) <= Z.max 0 timeout /\
    match wait_for_server script host port timeout st with
    | Ret b st' =>
        trace st' = (wait_trace host port b fails ++ trace st)%list /\
        (b = false -> now st + 1000 * timeout <= now st') /\
        ((forall i, ~ accepts (script i)) -> b = false)
    | Exc e st' =>
        is_socket_error e = false /\
        trace st' =
          (EvConnect host port (Raised e) ::
           flat_map (failed_round host port) fails ++ trace st)%list
    | Out _ => False
    end.
Proof.
  unfold wait_for_server, bind, time_time.
  destruct (wait_for_server_loop_general script (Z.to_nat timeout) host port
              timeout (now st) st) as (fails & F & L & H); [lia|].
  exists fails. split; [exact F|]. split; [lia|exact H].
Qed.

(** C4 as stated fails: a connect attempt that raises an exception which
    is not a [socket.error] (here the [OverflowError] of a port outside
    0-65535) ends the wait by itself, at the first attempt, long before
    the timeout, and no [False] is returned. *)
Lemma erroring_attempt_ends_the_wait :
  exists st',
    wait_for_server port_out_of_range "localhost" 70000 120 one_child =
      Exc (OtherException "bind(): port must be 0-65535.") st' /\
    connects (trace st') = 1%nat /\
    now st' = now one_child.
Proof. eexists. split; [vm_compute; reflexivity|]. split; vm_compute; reflexivity. Qed.

(** ** What the platform receives *)



(** Nor does every invocation return: with a server that stays healthy
    the handler is still in its loop after any number of rounds. *)
Example healthy_session_runs_on fuel :
  exists st',
    handler always_accepting default_config fuel job1 (initial_state 0) = Out st'.
Proof.
  apply (healthy_session_does_not_return always_accepting default_config
           fuel job1 (VStr "s1")).
  - intros i. repeat split.
  - intros s. reflexivity.
Qed.

(** An exception of [progress_update] escapes as well (line 147). *)
Example progress_update_failure_escapes :
  exists st',
    handler (fun i => mkResp 0 []
                        (fun k => match k with
                                  | KProgress => Some (OtherException "connection lost")
                                  | _ => None
                                  end) 0)
      default_config 10 job1 (initial_state 0) =
    Exc (OtherException "connection lost") st'.
Proof. eexists. vm_compute. reflexivity. Qed.

(** ** The [finally] block and the result of the session *)

(** C6, as the code has it.  With the signals delivered, the [finally]
    block completes: the only exception it meets, the expiry of the
    10-second wait, is caught and answered by [kill].  The session then
    ends the way the guarded loop ended, with the same object or the same
    exception. *)
Theorem cleanup_keeps_the_result script cfg fuel sid st :
  signals_delivered script ->
  (exists st',
     cleanup script st = Ret tt st' /\
     server_process st' = server_process st /\
     ((server_process st = None /\ st' = st) \/
      (exists h c, server_process st = Some h /\
         trace st' = EvPoll h (Some c) :: trace st) \/
      (exists h c, server_process st = Some h /\
         trace st' =
           EvWait h 10 (Some c) :: EvTerminate h ::
           EvPrint [VStr "[PersonaPlex] Shutting down server..."] ::
           EvPoll h None :: trace st) \/
      (exists h, server_process st = Some h /\
         trace st' =
           EvKill h :: EvWait h 10 None :: EvTerminate h ::
           EvPrint [VStr "[PersonaPlex] Shutting down server..."] ::
           EvPoll h None :: trace st))) /\
  match guarded_monitor script cfg fuel sid st with
  | Ret v st1 =>
      exists st2, cleanup script st1 = Ret tt st2 /\
                  monitoring script cfg fuel sid st = Ret v st2
  | Exc e st1 =>
      exists st2, cleanup script st1 = Ret tt st2 /\
                  monitoring script cfg fuel sid st = Exc e st2
  | Out st1 => monitoring script cfg fuel sid st = Out st1
  end.
Proof.
  intros Hsig. split; [apply cleanup_total, Hsig|].
  unfold monitoring, finally_.
  destruct (guarded_monitor script cfg fuel sid st) as [v st1|e st1|st1];
    [| |reflexivity];
    destruct (cleanup_total script st1 Hsig) as (st2 & Ec & _);
    exists st2; rewrite Ec; split; reflexivity.
Qed.

Lemma cleanup_keeps_the_result_witness :
  (exists st',
     cleanup always_refusing one_child = Ret tt st' /\
     server_process st' = server_process one_child /\
     ((server_process one_child = None /\ st' = one_child) \/
      (exists h c, server_process one_child = Some h /\
         trace st' = EvPoll h (Some c) :: trace one_child) \/
      (exists h c, server_process one_child = Some h /\
         trace st' =
           EvWait h 10 (Some c) :: EvTerminate h ::
           EvPrint [VStr "[PersonaPlex] Shutting down server..."] ::
           EvPoll h None :: trace one_child) \/
      (exists h, server_process one_child = Some h /\
         trace st' =
           EvKill h :: EvWait h 10 None :: EvTerminate h ::
           EvPrint [VStr "[PersonaPlex] Shutting down server..."] ::
           EvPoll h None :: trace one_child))) /\
  match guarded_monitor always_refusing default_config 0 (VStr "s1") one_child with
  | Ret v st1 =>
      exists st2, cleanup always_refusing st1 = Ret tt st2 /\
                  monitoring always_refusing default_config 0 (VStr "s1") one_child
                    = Ret v st2
  | Exc e st1 =>
      exists st2, cleanup always_refusing st1 = Ret tt st2 /\
                  monitoring always_refusing default_config 0 (VStr "s1") one_child
                    = Exc e st2
  | Out st1 =>
      monitoring always_refusing default_config 0 (VStr "s1") one_child = Out st1
  end.
Proof.
  apply (cleanup_keeps_the_result always_refusing default_config 0 (VStr "s1")
           one_child).
  intros i. repeat split.
Defined.

(** C6 as stated fails.  The health check fails, [terminate] raises in
    the restart, [except Exception] makes the error result of it; in the
    [finally] block the child is still alive, [terminate] raises again,
    and this exception, which nothing catches, replaces the error result:
    the handler raises. *)
Lemma cleanup_failure_replaces_the_result :
  exists st1 st2 st3,
    guarded_monitor signals_refused default_config 1 (VStr "s1") one_child =
      Ret (error_result "[Errno 1] Operation not permitted" (VStr "s1")) st1 /\
    cleanup signals_refused st1 =
      Exc (OSError "[Errno 1] Operation not permitted") st2 /\
    monitoring signals_refused default_config 1 (VStr "s1") one_child =
      Exc (OSError "[Errno 1] Operation not permitted") st2 /\
    handler signals_refused default_config 10 job1 (initial_state 0) =
      Exc (OSError "[Errno 1] Operation not permitted") st3.
Proof.
  do 3 eexists.
  split; [vm_compute; reflexivity|].
  split; [vm_compute; reflexivity|].
  split; vm_compute; reflexivity.
Qed.

(** ** The [finally] block on a child that has exited *)

(** C7.  When the child has already exited, the [finally] block polls it
    and does nothing else: no [terminate], no [wait], no [kill], no
    exception.  Running it a second time on the same handle does the
    same. *)
Theorem cleanup_idempotent_on_exited script st h c :
  server_process st = Some h ->
  exit_status (procs st) h = Some c ->
  exists st1 st2,
    cleanup script st = Ret tt st1 /\
    trace st1 = EvPoll h (Some c) :: trace st /\
    cleanup script st1 = Ret tt st2 /\
    trace st2 = EvPoll h (Some c) :: EvPoll h (Some c) :: trace st.
Proof.
  intros Hsp Hex.
  destruct (cleanup_exited script st h c Hsp Hex) as [E1 T1].
  destruct (cleanup_exited script (polled script h st) h c) as [E2 T2].
  - rewrite server_process_polled. exact Hsp.
  - rewrite exit_status_polled. apply exit_status_step, Hex.
  - exists (polled script h st), (polled script h (polled script h st)).
    rewrite T2, T1. auto.
Qed.

Lemma cleanup_idempotent_on_exited_witness :
  exists st1 st2,
    cleanup always_accepting one_dead_child = Ret tt st1 /\
    trace st1 = EvPoll 0 (Some 1) :: trace one_dead_child /\
    cleanup always_accepting st1 = Ret tt st2 /\
    trace st2 = EvPoll 0 (Some 1) :: EvPoll 0 (Some 1) :: trace one_dead_child.
Proof.
  apply (cleanup_idempotent_on_exited always_accepting one_dead_child 0 1);
    reflexivity.
Defined.

(** ** The child exits on its own *)

(** C8, as the code has it.  When the [poll] at the head of the loop sees
    that the child has exited, the loop ends there: the only calls made
    from then on are that [poll] and the one of the [finally] block, and
    the session returns the stopped result with the exit status seen and
    the session id. *)
Theorem exit_seen_by_poll_is_reported script cfg fuel sid st h c :
  server_process st = Some h ->
  exit_status (procs (step script 0 st)) h = Some c ->
  exists st',
    monitoring script cfg (S fuel) sid st =
      Ret (stopped_result (VInt c) sid) st' /\
    trace st' = EvPoll h (Some c) :: EvPoll h (Some c) :: trace st.
Proof.
  intros Hsp Hex. exists (polled script h (polled script h st)).
  split; [apply monitoring_exited; assumption|].
  rewrite !trace_polled, Hex.
  rewrite (exit_status_step script h c 0 (polled script h st)); [reflexivity|].
  rewrite exit_status_polled. exact Hex.
Qed.

Lemma exit_seen_by_poll_is_reported_witness :
  exists st',
    monitoring always_accepting default_config 1 (VStr "s1") one_dead_child =
      Ret (stopped_result (VInt 1) (VStr "s1")) st' /\
    trace st' = EvPoll 0 (Some 1) :: EvPoll 0 (Some 1) :: trace one_dead_child.
Proof.
  apply (exit_seen_by_poll_is_reported always_accepting default_config 0
           (VStr "s1") one_dead_child 0 1); reflexivity.
Defined.

(** The scenario of the specification in which the exit is seen by
    [poll]: the child exits with status 1 between a successful health
    check and the next [poll]. *)
Example healthy_then_exit_is_reported :
  exists st',
    handler healthy_then_exit default_config 10 job1 (initial_state 0) =
      Ret (stopped_result (VInt 1) (VStr "s1")) st' /\
    launches (trace st') = 1%nat.
Proof. eexists. split; vm_compute; reflexivity. Qed.

(** C8 as stated fails.  The child exits on its own with status 1 while
    the loop sleeps; the health check that follows finds the port closed
    and the loop restarts the server instead of ending: a second process
    is launched, no [poll] ever reports the exit of the first child, and
    the session goes on until the replacement exits, reporting the
    replacement's status 0. *)
Lemma exit_while_sleeping_is_restarted :
  exists st',
    handler exit_while_sleeping default_config 10 job1 (initial_state 0) =
      Ret (stopped_result (VInt 0) (VStr "s1")) st' /\
    launches (trace st') = 2%nat /\
    exit_status (procs st') 0 = Some 1 /\
    existsb (fun e => match e with
                      | EvPoll 0 (Some _) => true
                      | _ => false
                      end) (trace st') = false.
Proof.
  eexists. split; [vm_compute; reflexivity|].
  repeat split; vm_compute; reflexivity.
Qed.

(** ** The server never becomes ready *)




(** ** The relaunch fails *)



(** * Further properties *)

(** ** [wait_for_server] in any world *)

Lemma wait_for_server_loop_outcome script fuel host port timeout start_time st :
  1000 * timeout - (now st - start_time) <= 1000 * Z.of_nat fuel ->
  match wait_for_server_loop script fuel host port timeout start_time st with
  | Ret true st' => exists tr, trace st' = EvConnect host port (Returned 0) :: tr
  | Ret false st' => start_time + 1000 * timeout <= now st'
  | Exc e st' =>
      is_socket_error e = false /\
      exists tr, trace st' = EvConnect host port (Raised e) :: tr
  | Out _ => False
  end.
Proof.
  revert st. induction fuel as [|fuel IH]; intros st Hfuel;
    cbn [wait_for_server_loop];
    destruct (now st - start_time <? 1000 * timeout) eqn:C;
    try (apply Z.ltb_ge in C; lia).
  - apply Z.ltb_lt in C. lia.
  - apply Z.ltb_lt in C.
    assert (Hagain : forall a,
      match bind (time_sleep script 1)
                 (fun _ => wait_for_server_loop script fuel host port timeout start_time)
                 (record (EvConnect host port a) (step script 0 st)) with
      | Ret true st' => exists tr, trace st' = EvConnect host port (Returned 0) :: tr
      | Ret false st' => start_time + 1000 * timeout <= now st'
      | Exc e st' =>
          is_socket_error e = false /\
          exists tr, trace st' = EvConnect host port (Raised e) :: tr
      | Out _ => False
      end).
    { intros a. unfold bind, time_sleep. apply IH.
      cbn [now record step]. lia. }
    unfold connect_attempt, answer.
    destruct (r_raise (script (calls st)) KConnect) as [e|].
    + destruct (is_socket_error e) eqn:Hs; [apply Hagain|].
      split; [exact Hs|]. eexists. reflexivity.
    + destruct (r_connect (script (calls st)) =? 0) eqn:Z0; [|apply Hagain].
      apply Z.eqb_eq in Z0. rewrite Z0. eexists. reflexivity.
Qed.

(** X2.  In any world [wait_for_server] ends, in one of three ways: it
    returns [True] right after an accepted connect attempt; it returns
    [False] once the timeout has gone by; or a connect attempt raised an
    exception that is not a [socket.error], which leaves the function at
    once. *)
Theorem wait_for_server_outcome script host port timeout st :
  match wait_for_server script host port timeout st with
  | Ret true st' => exists tr, trace st' = EvConnect host port (Returned 0) :: tr
  | Ret false st' => now st + 1000 * timeout <= now st'
  | Exc e st' =>
      is_socket_error e = false /\
      exists tr, trace st' = EvConnect host port (Raised e) :: tr
  | Out _ => False
  end.
Proof.
  unfold wait_for_server, bind, time_time.
  apply wait_for_server_loop_outcome. lia.
Qed.

(** A connect attempt that raises something else than a [socket.error]
    ends the wait with that exception, after one attempt. *)
Example overflow_error_leaves_wait_for_server :
  exists st',
    wait_for_server port_out_of_range "localhost" 70000 120 one_child =
      Exc (OtherException "bind(): port must be 0-65535.") st' /\
    connects (trace st') = 1%nat.
Proof. eexists. split; vm_compute; reflexivity. Qed.

(** X1.  With a timeout that is zero or negative, [wait_for_server]
    returns [False] at once: no connect attempt, no sleep, the state is
    the one it started from. *)
Theorem wait_for_server_no_time script host port timeout st :
  timeout <= 0 ->
  wait_for_server script host port timeout st = Ret false st.
Proof.
  intros H. unfold wait_for_server, bind, time_time.
  replace (Z.to_nat timeout) with 0%nat by lia.
  cbn [wait_for_server_loop].
  replace (now st - now st <? 1000 * timeout) with false; [reflexivity|].
  symmetry. apply Z.ltb_ge. lia.
Qed.

Lemma wait_for_server_no_time_witness :
  wait_for_server always_accepting "localhost" 8998 0 one_child =
  Ret false one_child.
Proof.
  apply (wait_for_server_no_time always_accepting "localhost" 8998 0 one_child).
  lia.
Defined.

(** ** [start_personaplex_server] *)

Lemma getenv_setenv_same env name value default :
  getenv (setenv env name value) name default = value.
Proof.
  induction env as [|[k v] env IH]; simpl.
  - rewrite String.eqb_refl. reflexivity.
  - destruct (String.eqb k name) eqn:E; simpl; rewrite E; auto.
Qed.

Lemma getenv_setenv_other env name value other default :
  other <> name ->
  getenv (setenv env name value) other default = getenv env other default.
Proof.
  intros Hne. induction env as [|[k v] env IH]; simpl.
  - destruct (String.eqb name other) eqn:E; [|reflexivity].
    apply String.eqb_eq in E. congruence.
  - destruct (String.eqb k name) eqn:E; simpl.
    + destruct (String.eqb k other) eqn:E'; [|reflexivity].
      apply String.eqb_eq in E, E'. congruence.
    + rewrite IH. reflexivity.
Qed.

Lemma set_exited_keeps_command c p :
  args (set_exited c p) = args p /\ penv (set_exited c p) = penv p.
Proof. unfold set_exited. destruct (exited p); auto. Qed.

Lemma apply_exits_keeps_command ex ps k q :
  nth_error ps k = Some q ->
  exists q',
    nth_error (apply_exits ex ps) k = Some q' /\
    args q' = args q /\ penv q' = penv q.
Proof.
  revert ps q. induction ex as [|[h c] ex IH]; intros ps q H; simpl.
  - eauto.
  - destruct (IH (update_nth h (set_exited c) ps)
                 (if Nat.eqb h k then set_exited c q else q))
      as (q' & N & A & P).
    + rewrite nth_error_update_nth, H. destruct (Nat.eqb h k); reflexivity.
    + exists q'. split; [exact N|].
      destruct (Nat.eqb h k); [|auto].
      destruct (set_exited_keeps_command c q) as [A' P'].
      split; congruence.
Qed.

(** X3.  A launch that succeeds adds exactly one entry to the process
    table; the handle it returns and stores in the global is the position
    of that entry; the new child is alive and unpolled, and its command
    line is the interpreter, [-m moshi.server], the SSL directory, host
    [0.0.0.0] and the configured port, followed by [--cpu-offload] when
    the offload is configured.  The children already there keep their
    command and environment. *)
Theorem launch_registers_the_child script cfg st :
  r_raise (script (calls st)) KPopen = None ->
  exists st' p,
    start_personaplex_server script cfg st = Ret (List.length (procs st)) st' /\
    server_process st' = Some (List.length (procs st)) /\
    List.length (procs st') = S (List.length (procs st)) /\
    nth_error (procs st') (List.length (procs st)) = Some p /\
    exited p = None /\
    returncode p = None /\
    args p =
      (["/app/moshi/.venv/bin/python"; "-m"; "moshi.server";
        "--ssl"; ssl_dir cfg; "--host"; "0.0.0.0";
        "--port"; str_of_int (personaplex_port cfg)]
       ++ (if cpu_offload cfg then ["--cpu-offload"] else []))%list /\
    (forall k q,
       nth_error (procs st) k = Some q ->
       exists q',
         nth_error (procs st') k = Some q' /\
         args q' = args q /\ penv q' = penv q).
Proof.
  intros R. unfold start_personaplex_server, bind, popen, answer.
  rewrite R. cbn -[step]. unfold step; simpl.
  rewrite !length_apply_exits.
  eexists. eexists. split; [reflexivity|]. split; [reflexivity|].
  simpl. split; [rewrite length_app, length_apply_exits; simpl; lia|].
  split.
  { rewrite nth_error_app2; rewrite length_apply_exits; [|lia].
    rewrite Nat.sub_diag. reflexivity. }
  split; [reflexivity|]. split; [reflexivity|]. split; [reflexivity|].
  intros k q H.
  destruct (apply_exits_keeps_command (r_exits (script (calls st))) (procs st) k q H)
    as (q' & N & A & P).
  exists q'. split; [|auto].
  rewrite nth_error_app1; [exact N|].
  apply nth_error_Some. congruence.
Qed.

Lemma launch_registers_the_child_witness :
  exists st' p,
    start_personaplex_server always_accepting token_config one_child =
      Ret (List.length (procs one_child)) st' /\
    server_process st' = Some (List.length (procs one_child)) /\
    List.length (procs st') = S (List.length (procs one_child)) /\
    nth_error (procs st') (List.length (procs one_child)) = Some p /\
    exited p = None /\
    returncode p = None /\
    args p =
      (["/app/moshi/.venv/bin/python"; "-m"; "moshi.server";
        "--ssl"; ssl_dir token_config; "--host"; "0.0.0.0";
        "--port"; str_of_int (personaplex_port token_config)]
       ++ (if cpu_offload token_config then ["--cpu-offload"] else []))%list /\
    (forall k q,
       nth_error (procs one_child) k = Some q ->
       exists q',
         nth_error (procs st') k = Some q' /\
         args q' = args q /\ penv q' = penv q).
Proof.
  apply (launch_registers_the_child always_accepting token_config one_child).
  reflexivity.
Defined.

(** X4.  A launch that raises changes nothing but the trace: the global
    still holds what it held, the process table has the size it had, and
    the exception is the one [Popen] raised. *)
Theorem failed_launch_keeps_the_handle script cfg st e :
  r_raise (script (calls st)) KPopen = Some e ->
  exists st',
    start_personaplex_server script cfg st = Exc e st' /\
    server_process st' = server_process st /\
    List.length (procs st') = List.length (procs st) /\
    trace st' = EvPopenFailed e :: trace st.
Proof.
  intros R. unfold start_personaplex_server, bind, popen, answer.
  rewrite R. eexists. split; [reflexivity|]. split; [reflexivity|].
  split; [|reflexivity]. simpl. apply length_apply_exits.
Qed.

Lemma failed_launch_keeps_the_handle_witness :
  exists st',
    start_personaplex_server launch_fails default_config one_child =
      Exc (OSError "[Errno 2] No such file or directory") st' /\
    server_process st' = server_process one_child /\
    List.length (procs st') = List.length (procs one_child) /\
    trace st' =
      EvPopenFailed (OSError "[Errno 2] No such file or directory") ::
      trace one_child.
Proof.
  apply (failed_launch_keeps_the_handle launch_fails default_config one_child).
  reflexivity.
Defined.

(** X5.  The environment of a launched child is [os.environ] with
    [HF_TOKEN] set to the configured token when there is one: the child
    sees the token, whatever [os.environ] held under that name, and every
    other variable as the handler sees it.  Without a token the child
    gets [os.environ] unchanged. *)
Theorem child_environment script cfg st :
  r_raise (script (calls st)) KPopen = None ->
  exists st' p,
    start_personaplex_server script cfg st = Ret (List.length (procs st)) st' /\
    nth_error (procs st') (List.length (procs st)) = Some p /\
    (hf_token cfg <> "" ->
     forall default, getenv (penv p) "HF_TOKEN" default = hf_token cfg) /\
    (forall name default,
       name <> "HF_TOKEN" ->
       getenv (penv p) name default = getenv (os_environ cfg) name default) /\
    (hf_token cfg = "" -> penv p = os_environ cfg).
Proof.
  intros R. unfold start_personaplex_server, bind, popen, answer.
  rewrite R. cbn -[step]. unfold step; simpl.
  rewrite !length_apply_exits.
  eexists. eexists. split; [reflexivity|]. simpl. split.
  { rewrite nth_error_app2; rewrite length_apply_exits; [|lia].
    rewrite Nat.sub_diag. reflexivity. }
  simpl. destruct (String.eqb (hf_token cfg) "") eqn:E.
  - apply String.eqb_eq in E. split; [congruence|]. split; reflexivity.
  - apply String.eqb_neq in E. split; [|split; [|congruence]].
    + intros _ default. apply getenv_setenv_same.
    + intros name default Hn. apply getenv_setenv_other. exact Hn.
Qed.

Lemma child_environment_witness :
  exists st' p,
    start_personaplex_server always_accepting token_config one_child =
      Ret (List.length (procs one_child)) st' /\
    nth_error (procs st') (List.length (procs one_child)) = Some p /\
    (hf_token token_config <> "" ->
     forall default, getenv (penv p) "HF_TOKEN" default = hf_token token_config) /\
    (forall name default,
       name <> "HF_TOKEN" ->
       getenv (penv p) name default = getenv (os_environ token_config) name default) /\
    (hf_token token_config = "" -> penv p = os_environ token_config).
Proof.
  apply (child_environment always_accepting token_config one_child).
  reflexivity.
Defined.

(** ** The job *)

(** X6.  A job without an ["id"] makes the handler raise [KeyError]
    before anything else happens, even when its input carries a session
    id: the default of [job_input.get] is evaluated first.  Nothing is
    printed, launched or reported. *)
Theorem job_without_id_raises script cfg fuel job d st :
  job_input job = VDict d ->
  dict_get job "id" = None ->
  handler script cfg fuel job st = Exc (KeyError "id") st.
Proof.
  intros Hin Hid. unfold handler, bind, read_session_id.
  unfold job_input in Hin. rewrite Hin, Hid. reflexivity.
Qed.

Lemma job_without_id_raises_witness :
  handler always_accepting default_config 10 job_without_id (initial_state 0) =
  Exc (KeyError "id") (initial_state 0).
Proof.
  apply (job_without_id_raises always_accepting default_config 10 job_without_id
           [("session_id", VStr "s1")] (initial_state 0)); reflexivity.
Defined.

(** ** What the monitoring section never does *)

Section NoProgress.

Variable script : nat -> Resp.
Variable cfg : Config.
Variable base : list Event.

Lemma progress_updates_app tr1 tr2 :
  progress_updates (tr1 ++ tr2) = (progress_updates tr1 + progress_updates tr2)%nat.
Proof.
  induction tr1 as [|e tr1 IH]; simpl; [reflexivity|].
  destruct e; simpl; rewrite ?IH; reflexivity.
Qed.

Lemma no_progress_record e st :
  match e with EvProgress _ => False | _ => True end ->
  no_progress_since base st -> no_progress_since base (record e st).
Proof.
  intros He (after & T & C). exists (e :: after). split.
  - simpl. rewrite T. reflexivity.
  - destruct e; simpl; try exact C. contradiction.
Qed.

Lemma no_progress_same_trace st st' :
  trace st' = trace st -> no_progress_since base st -> no_progress_since base st'.
Proof. intros E (after & T & C). exists after. rewrite E. auto. Qed.

Lemma no_progress_step req st :
  no_progress_since base st -> no_progress_since base (step script req st).
Proof. apply no_progress_same_trace. reflexivity. Qed.

(** The program [m] sends no progress update, however it ends. *)
Local Notation silent m :=
  (triple (no_progress_since base) m
     (fun _ => no_progress_since base) (fun _ => no_progress_since base)
     (no_progress_since base)).

Ltac silent_step :=
  repeat first
    [ assumption
    | apply no_progress_record; [exact I|]
    | apply no_progress_step
    | match goal with
      | |- no_progress_since _ (mkState _ _ _ _ (trace ?s)) =>
          apply (no_progress_same_trace s); [reflexivity|]
      end ].

Lemma silent_bind {A B} (m : M A) (k : A -> M B) :
  silent m -> (forall a, silent (k a)) -> silent (bind m k).
Proof. intros Hm Hk. eapply triple_bind; [exact Hm|exact Hk]. Qed.

Lemma silent_ret {A} (a : A) : silent (ret a).
Proof. intros st H. exact H. Qed.

Lemma silent_print p : silent (print p).
Proof. intros st H. unfold print. silent_step. Qed.

Lemma silent_time_sleep secs : silent (time_sleep script secs).
Proof. intros st H. unfold time_sleep. silent_step. Qed.

Lemma silent_poll h : silent (poll script h).
Proof. intros st H. unfold poll. silent_step. Qed.

Lemma silent_terminate h : silent (terminate script h).
Proof.
  intros st H. unfold terminate, answer.
  destruct (r_raise (script (calls st)) KTerminate); silent_step.
Qed.

Lemma silent_kill h : silent (kill script h).
Proof.
  intros st H. unfold kill, answer.
  destruct (r_raise (script (calls st)) KKill); silent_step.
Qed.

Lemma silent_wait h secs : silent (wait script h secs).
Proof.
  intros st H. unfold wait, answer.
  destruct (r_raise (script (calls st)) KWait); [silent_step|].
  destruct (exit_status (procs (step script 0 st)) h); silent_step.
Qed.

Lemma silent_get_server_process : silent get_server_process.
Proof. intros st H. exact H. Qed.

Lemma silent_set_server_process sp : silent (set_server_process sp).
Proof. intros st H. unfold set_server_process. silent_step. Qed.

Lemma silent_start : silent (start_personaplex_server script cfg).
Proof.
  intros st H. unfold start_personaplex_server, bind, popen, answer.
  destruct (r_raise (script (calls st)) KPopen); cbn -[step]; silent_step.
Qed.

Lemma silent_wait_for_server_loop fuel host port timeout start_time :
  silent (wait_for_server_loop script fuel host port timeout start_time).
Proof.
  induction fuel as [|fuel IH]; intros st H; cbn [wait_for_server_loop];
    destruct (now st - start_time <? 1000 * timeout); try exact H.
  assert (Hagain : forall a,
    match bind (time_sleep script 1)
               (fun _ => wait_for_server_loop script fuel host port timeout start_time)
               (record (EvConnect host port a) (step script 0 st)) with
    | Ret _ s | Exc _ s | Out s => no_progress_since base s
    end).
  { intros a.
    pose proof (silent_bind (time_sleep script 1)
                  (fun _ => wait_for_server_loop script fuel host port timeout start_time)
                  (silent_time_sleep 1) (fun _ => IH)
                  (record (EvConnect host port a) (step script 0 st))) as G.
    assert (P : no_progress_since base
                  (record (EvConnect host port a) (step script 0 st)))
      by silent_step.
    specialize (G P).
    destruct (bind _ _ _); exact G. }
  unfold connect_attempt, answer.
  destruct (r_raise (script (calls st)) KConnect) as [e|].
  - destruct (is_socket_error e); [|silent_step].
    specialize (Hagain (Raised e)). destruct (bind _ _ _); exact Hagain.
  - destruct (r_connect (script (calls st)) =? 0); [silent_step|].
    specialize (Hagain (Returned (r_connect (script (calls st))))).
    destruct (bind _ _ _); exact Hagain.
Qed.

Lemma silent_wait_for_server host port timeout :
  silent (wait_for_server script host port timeout).
Proof.
  unfold wait_for_server. apply silent_bind.
  - intros st H. exact H.
  - intros t. apply silent_wait_for_server_loop.
Qed.

Lemma silent_restart : silent (restart script cfg).
Proof.
  unfold restart.
  apply silent_bind; [apply silent_print|]. intros _.
  apply silent_bind; [apply silent_get_server_process|]. intros sp.
  apply silent_bind.
  { destruct sp; [apply silent_terminate|]. intros st H. exact H. }
  intros _.
  apply silent_bind; [apply silent_start|]. intros h'.
  apply silent_bind; [apply silent_set_server_process|]. intros _.
  apply silent_bind; [apply silent_wait_for_server|]. intros _.
  apply silent_ret.
Qed.

Lemma silent_monitor fuel : silent (monitor script cfg fuel).
Proof.
  induction fuel as [|fuel IH]; intros st H; cbn [monitor];
    destruct (server_process st) as [h|]; try exact H.
  revert st H.
  apply silent_bind; [apply silent_poll|]. intros [c|]; [apply silent_ret|].
  apply silent_bind; [apply silent_time_sleep|]. intros _.
  apply silent_bind; [apply silent_wait_for_server|]. intros healthy.
  apply silent_bind; [|intros _; exact IH].
  destruct healthy; [apply silent_ret|apply silent_restart].
Qed.

Lemma silent_cleanup : silent (cleanup script).
Proof.
  unfold cleanup.
  apply silent_bind; [apply silent_get_server_process|].
  intros [h|]; [|apply silent_ret].
  apply silent_bind; [apply silent_poll|]. intros [c|]; [apply silent_ret|].
  apply silent_bind; [apply silent_print|]. intros _.
  apply silent_bind; [apply silent_terminate|]. intros _.
  intros st H. pose proof (silent_wait h 10 st H) as W.
  destruct (wait script h 10 st) as [c s|e s|s]; try exact W.
  destruct (is_TimeoutExpired e); [|exact W].
  apply silent_kill, W.
Qed.

Lemma silent_monitoring fuel sid : silent (monitoring script cfg fuel sid).
Proof.
  unfold monitoring.
  apply (triple_finally _ _ _ _ (fun _ => no_progress_since base) _
           (fun _ => no_progress_since base)).
  - unfold guarded_monitor.
    apply (triple_try_except _ _ _ _ _ (fun _ => no_progress_since base)).
    + unfold monitor_and_report.
      apply silent_bind; [apply silent_monitor|]. intros _.
      apply silent_bind; [apply silent_get_server_process|]. intros sp.
      apply silent_bind; [|intros rc; apply silent_ret].
      destruct sp; [|apply silent_ret].
      apply silent_bind; [intros st H; exact H|intros rc; apply silent_ret].
    + intros e _. apply silent_ret.
    + auto.
  - intros _. apply silent_cleanup.
  - intros _. apply silent_cleanup.
Qed.

End NoProgress.

(** ** What a session reports *)

Section Reports.

Variable script : nat -> Resp.
Variable cfg : Config.

Lemma read_session_id_ok job d id st :
  job_input job = VDict d ->
  dict_get job "id" = Some id ->
  read_session_id job st =
  Ret (match dict_get d "session_id" with Some v => v | None => id end) st.
Proof.
  intros Hin Hid. unfold read_session_id. unfold job_input in Hin.
  rewrite Hin, Hid. reflexivity.
Qed.

(** A restart that completes leaves a handle in the global. *)
Lemma restart_keeps_a_handle st u st' :
  restart script cfg st = Ret u st' -> exists h, server_process st' = Some h.
Proof.
  unfold restart. unfold bind at 1. unfold print.
  unfold bind at 1. unfold bind at 1. unfold get_server_process.
  cbn [server_process record].
  destruct (server_process st) as [h|]; [|discriminate].
  unfold terminate, answer.
  destruct (r_raise _ KTerminate); [discriminate|].
  unfold bind at 1.
  match goal with
  | |- context [start_personaplex_server script cfg ?s] =>
      pose proof (start_outcome script cfg s) as Ho;
      destruct (start_personaplex_server script cfg s) as [h' s1|e s1|s1];
      try discriminate
  end.
  rewrite (bind_Ret _ _ _ _ _ (set_server_process_same (Some h') s1 Ho)).
  unfold bind at 1.
  pose proof (wait_for_server_global script "localhost" (personaplex_port cfg) 60 s1) as G.
  destruct (wait_for_server script "localhost" (personaplex_port cfg) 60 s1)
    as [b s2|e s2|s2]; try discriminate.
  unfold ret. intros E. inversion E; subst. exists h'.
  simpl in G. congruence.
Qed.

(** When the loop ends, the handle in the global is that of a child that
    has exited, and [returncode] holds its exit status. *)
Lemma monitor_ends_on_exit fuel :
  forall st h0 u st',
    server_process st = Some h0 ->
    monitor script cfg fuel st = Ret u st' ->
    exists h c,
      server_process st' = Some h /\
      exit_status (procs st') h = Some c /\
      get_returncode h st' = Ret (Some c) st'.
Proof.
  induction fuel as [|fuel IH]; intros st h0 u st' Hsp; cbn [monitor];
    rewrite Hsp; [discriminate|].
  rewrite (bind_Ret _ _ _ _ _ (poll_eq script h0 st)).
  destruct (exit_status (procs (step script 0 st)) h0) as [c|] eqn:Hex.
  - unfold ret. intros E. inversion E; subst. exists h0, c.
    split; [rewrite server_process_polled; exact Hsp|].
    split; [rewrite exit_status_polled; exact Hex|].
    apply returncode_polled, Hex.
  - unfold bind at 1. unfold time_sleep.
    unfold bind at 1.
    match goal with
    | |- context [wait_for_server script ?a ?b ?c ?s] =>
        pose proof (wait_for_server_global script a b c s) as G;
        destruct (wait_for_server script a b c s) as [healthy s1|e s1|s1];
        try discriminate
    end.
    simpl in G. rewrite ?server_process_polled in G. rewrite Hsp in G.
    unfold bind at 1. destruct healthy.
    + unfold ret. apply (IH s1 h0). exact G.
    + destruct (restart script cfg s1) as [u1 s2|e s2|s2] eqn:Er;
        try discriminate.
      destruct (restart_keeps_a_handle s1 u1 s2 Er) as [h' Hh'].
      apply (IH s2 h'). exact Hh'.
Qed.

(** The objects lines 154-189 can return carry the session id. *)
Lemma monitoring_result fuel sid st v st' :
  monitoring script cfg fuel sid st = Ret v st' ->
  (exists rc, v = stopped_result rc sid) \/ (exists msg, v = error_result msg sid).
Proof.
  unfold monitoring, finally_, guarded_monitor, try_except_Exception,
    monitor_and_report.
  unfold bind at 1.
  destruct (monitor script cfg fuel st) as [u s1|e s1|s1]; [| |discriminate].
  - unfold bind, get_server_process, get_returncode, ret.
    destruct (server_process s1);
      (destruct (cleanup script s1); try discriminate;
       intros E; inversion E; subst; left; eauto).
  - destruct (is_Exception e).
    + unfold ret. destruct (cleanup script s1); try discriminate.
      intros E; inversion E; subst. right; eauto.
    + destruct (cleanup script s1); discriminate.
Qed.

(** The return code reported is the exit status of the child the global
    refers to. *)
Lemma monitoring_return_code fuel sid st h0 rc sid' st' :
  server_process st = Some h0 ->
  monitoring script cfg fuel sid st = Ret (stopped_result rc sid') st' ->
  exists h c,
    rc = VInt c /\ server_process st' = Some h /\
    exit_status (procs st') h = Some c.
Proof.
  intros Hsp.
  unfold monitoring, finally_, guarded_monitor, try_except_Exception,
    monitor_and_report.
  unfold bind at 1.
  destruct (monitor script cfg fuel st) as [u s1|e s1|s1] eqn:Em;
    [| |discriminate].
  - destruct (monitor_ends_on_exit fuel st h0 u s1 Hsp Em) as (h & c & Sp & Ex & Rc).
    unfold bind at 1. unfold get_server_process. rewrite Sp.
    unfold bind at 1. rewrite (bind_Ret _ _ _ _ _ Rc). unfold ret.
    destruct (cleanup_exited script s1 h c Sp Ex) as [Ec _]. rewrite Ec.
    intros E. inversion E; subst. exists h, c.
    split; [reflexivity|].
    split; [rewrite server_process_polled; exact Sp|].
    rewrite exit_status_polled. apply exit_status_step, Ex.
  - destruct (is_Exception e).
    + unfold ret. destruct (cleanup script s1); discriminate.
    + destruct (cleanup script s1); discriminate.
Qed.

(** The two ways of a run of the handler: it reaches line 154 with the
    server ready and the connection details just reported, or it ends
    before. *)
Lemma handler_cases fuel job st :
  (exists sid st_m h before,
     (forall s, read_session_id job s = Ret sid s) /\
     server_process st_m = Some h /\
     trace st_m =
       EvPrint [VStr "[PersonaPlex] Waiting for cancellation signal..."] ::
       EvPrint [VStr "[PersonaPlex] Server running at ";
                VStr ("wss://" ++ get_public_ip cfg ++ ":" ++ get_tcp_port cfg)] ::
       EvProgress (connection_info cfg sid) ::
       EvPrint [VStr "[PersonaPlex] Server is ready!"] ::
       EvConnect "localhost" (personaplex_port cfg) (Returned 0) :: before /\
     progress_updates before = progress_updates (trace st) /\
     handler script cfg fuel job st = monitoring script cfg fuel sid st_m)
  \/
  match handler script cfg fuel job st with
  | Ret v st' =>
      ((exists msg,
          v = failure_result ("Failed to start PersonaPlex server: " ++ msg)) \/
       v = failure_result "PersonaPlex server failed to start within timeout") /\
      no_progress_since (trace st) st'
  | Exc e st' =>
      no_progress_since (trace st) st' \/
      exists sid before,
        (forall s, read_session_id job s = Ret sid s) /\
        trace st' =
          EvProgress (connection_info cfg sid) ::
          EvPrint [VStr "[PersonaPlex] Server is ready!"] ::
          EvConnect "localhost" (personaplex_port cfg) (Returned 0) :: before /\
        progress_updates before = progress_updates (trace st)
  | Out _ => False
  end.
Proof.
  assert (NP0 : no_progress_since (trace st) st) by (exists []; auto).
  remember (handler script cfg fuel job st) as r eqn:Hh.
  unfold handler in Hh.
  destruct (read_session_id_cases job) as [[sid Hr]|[e Hr]].
  2:{ right. rewrite (bind_Exc _ _ _ _ _ (Hr st)) in Hh. subst r.
      left. exact NP0. }
  rewrite (bind_Ret _ _ _ _ _ (Hr st)) in Hh.
  unfold bind at 1 in Hh. unfold print at 1 in Hh.
  set (st1 := record (EvPrint _) st) in Hh.
  assert (NP1 : no_progress_since (trace st) st1)
    by (apply no_progress_record; [exact I|exact NP0]).
  pose proof (silent_start script cfg (trace st) st1 NP1) as NPs.
  pose proof (start_outcome script cfg st1) as Ho.
  destruct (start_personaplex_server script cfg st1) as [h s|e s|s];
    [| |destruct Ho].
  2:{ right. destruct (is_Exception e); subst r; [|left; exact NPs].
      split; [left; eauto|exact NPs]. }
  rewrite (bind_Ret _ _ _ _ _ (set_server_process_same (Some h) s Ho)) in Hh.
  unfold bind at 1 in Hh. unfold print at 1 in Hh.
  set (st2 := record (EvPrint _) s) in Hh.
  assert (NP2 : no_progress_since (trace st) st2)
    by (apply no_progress_record; [exact I|exact NPs]).
  pose proof (silent_wait_for_server script (trace st) "localhost"
                (personaplex_port cfg) 120 st2 NP2) as NPw.
  pose proof (wait_for_server_outcome script "localhost" (personaplex_port cfg)
                120 st2) as Wo.
  pose proof (wait_for_server_global script "localhost" (personaplex_port cfg)
                120 st2) as Wg.
  unfold bind at 1 in Hh.
  destruct (wait_for_server script "localhost" (personaplex_port cfg) 120 st2)
    as [[|] s3|e s3|s3]; [| | |destruct Wo].
  - (* ready *)
    cbn [negb] in Hh. destruct Wo as [before Tw].
    assert (Cb : progress_updates before = progress_updates (trace st)).
    { destruct NPw as (after & Ta & Ca). rewrite Tw in Ta.
      apply (f_equal progress_updates) in Ta.
      rewrite progress_updates_app, Ca in Ta. simpl in Ta. exact Ta. }
    unfold bind at 1 in Hh. unfold print at 1 in Hh.
    unfold bind at 1 in Hh. unfold progress_update, answer in Hh.
    destruct (r_raise _ KProgress) as [e|].
    + right. subst r. right. exists sid, before. split; [exact Hr|].
      split; [|exact Cb]. cbn [trace record step]. rewrite Tw. reflexivity.
    + left. unfold bind at 1 in Hh. unfold bind at 1 in Hh.
      unfold print in Hh.
      eexists sid, _, h, before. split; [exact Hr|].
      split; [|split; [|split; [exact Cb|exact Hh]]].
      * cbn [server_process record step]. simpl in Wg. rewrite Wg. exact Ho.
      * cbn [trace record step]. rewrite Tw. reflexivity.
  - (* not ready in time *)
    right. cbn [negb] in Hh.
    unfold bind at 1 in Hh. unfold bind at 1 in Hh.
    unfold get_server_process in Hh.
    simpl in Wg. replace (server_process s3) with (Some h) in Hh
      by (rewrite Wg; symmetry; exact Ho).
    pose proof (silent_terminate script (trace st) h s3 NPw) as NPt.
    unfold bind in Hh.
    destruct (terminate script h s3) as [u s4|e s4|s4] eqn:Et; subst r.
    + unfold ret. split; [right; reflexivity|exact NPt].
    + left. exact NPt.
    + unfold terminate, answer in Et.
      destruct (r_raise _ KTerminate); discriminate.
  - (* the wait raised *)
    right. subst r. left. exact NPw.
Qed.

End Reports.

(** X7.  The session id is the input's ["session_id"] when there is one,
    the job's ["id"] otherwise, and every object the handler returns for
    such a job is a launch failure object, the readiness-timeout failure
    object, or a stopped or error result that carries exactly that
    session id. *)
Theorem results_carry_the_session_id script cfg fuel job d id st v st' :
  job_input job = VDict d ->
  dict_get job "id" = Some id ->
  handler script cfg fuel job st = Ret v st' ->
  (exists msg, v = failure_result ("Failed to start PersonaPlex server: " ++ msg)) \/
  v = failure_result "PersonaPlex server failed to start within timeout" \/
  (exists rc,
     v = stopped_result rc
           (match dict_get d "session_id" with Some s => s | None => id end)) \/
  (exists msg,
     v = error_result msg
           (match dict_get d "session_id" with Some s => s | None => id end)).
Proof.
  intros Hin Hid Hv.
  destruct (handler_cases script cfg fuel job st)
    as [(sid & st_m & h & before & Hr & _ & _ & _ & E)|H].
  - pose proof (read_session_id_ok job d id st Hin Hid) as Hr'.
    rewrite (Hr st) in Hr'. inversion Hr' as [Hsid].
    rewrite E in Hv.
    destruct (monitoring_result script cfg fuel sid st_m v st' Hv) as [S|S];
      rewrite Hsid in S; auto.
  - rewrite Hv in H. destruct H as [[F|F] _]; auto.
Qed.

Lemma results_carry_the_session_id_witness :
  (exists msg,
     stopped_result (VInt 1) (VStr "s1") =
     failure_result ("Failed to start PersonaPlex server: " ++ msg)) \/
  stopped_result (VInt 1) (VStr "s1") =
    failure_result "PersonaPlex server failed to start within timeout" \/
  (exists rc,
     stopped_result (VInt 1) (VStr "s1") =
     stopped_result rc
       (match dict_get [("session_id", VStr "s1")] "session_id" with
        | Some s => s
        | None => VStr "job-1"
        end)) \/
  (exists msg,
     stopped_result (VInt 1) (VStr "s1") =
     error_result msg
       (match dict_get [("session_id", VStr "s1")] "session_id" with
        | Some s => s
        | None => VStr "job-1"
        end)).
Proof.
  apply (results_carry_the_session_id healthy_then_exit default_config 10 job1
           [("session_id", VStr "s1")] (VStr "job-1") (initial_state 0)
           (stopped_result (VInt 1) (VStr "s1"))
           (state_of (handler healthy_then_exit default_config 10 job1
                        (initial_state 0)))).
  - reflexivity.
  - reflexivity.
  - vm_compute. reflexivity.
Defined.

(** X8.  Whenever the handler returns a stopped result, the return code
    in it is an integer, the exit status of the child the global refers
    to when the handler returns: never the fallback [-1] of line 167 for
    want of a handle, never [None]. *)
Theorem reported_return_code_is_the_exit_status script cfg fuel job st rc sid st' :
  handler script cfg fuel job st = Ret (stopped_result rc sid) st' ->
  exists h c,
    rc = VInt c /\
    server_process st' = Some h /\
    exit_status (procs st') h = Some c.
Proof.
  intros Hv.
  destruct (handler_cases script cfg fuel job st)
    as [(sid' & st_m & h & before & _ & Sp & _ & _ & E)|H].
  - rewrite E in Hv.
    exact (monitoring_return_code script cfg fuel sid' st_m h rc sid st' Sp Hv).
  - rewrite Hv in H. destruct H as [[[msg F]|F] _]; discriminate F.
Qed.

Lemma reported_return_code_is_the_exit_status_witness :
  exists h c,
    VInt 1 = VInt c /\
    server_process
      (state_of (handler healthy_then_exit default_config 10 job1 (initial_state 0)))
      = Some h /\
    exit_status
      (procs (state_of (handler healthy_then_exit default_config 10 job1
                          (initial_state 0)))) h = Some c.
Proof.
  apply (reported_return_code_is_the_exit_status healthy_then_exit default_config
           10 job1 (initial_state 0) (VInt 1) (VStr "s1")).
  vm_compute. reflexivity.
Defined.

(** X9.  In every run of the handler, however it ends or wherever it
    stands, the connection details are reported at most once, and only
    directly after a connect attempt was accepted and the server declared
    ready: either the run has sent no progress update, or its trace is
    some events without a progress update, then the one update, carrying
    the connection info of the session, then the "ready" line and the
    accepted attempt. *)
Theorem connection_info_is_reported_once_when_ready script cfg fuel job st :
  no_progress_since (trace st) (state_of (handler script cfg fuel job st)) \/
  exists sid after before,
    (forall s, read_session_id job s = Ret sid s) /\
    trace (state_of (handler script cfg fuel job st)) =
      (after ++
       EvProgress (connection_info cfg sid) ::
       EvPrint [VStr "[PersonaPlex] Server is ready!"] ::
       EvConnect "localhost" (personaplex_port cfg) (Returned 0) :: before)%list /\
    progress_updates after = 0%nat /\
    progress_updates before = progress_updates (trace st).
Proof.
  destruct (handler_cases script cfg fuel job st)
    as [(sid & st_m & h & before & Hr & _ & T & C & E)|H].
  - right. rewrite E.
    assert (NP : no_progress_since (trace st_m) st_m) by (exists []; auto).
    pose proof (silent_monitoring script cfg (trace st_m) fuel sid st_m NP) as S.
    assert (S' : no_progress_since (trace st_m)
                   (state_of (monitoring script cfg fuel sid st_m))).
    { destruct (monitoring script cfg fuel sid st_m); exact S. }
    destruct S' as (after & Ta & Ca).
    exists sid,
      (after ++
       [EvPrint [VStr "[PersonaPlex] Waiting for cancellation signal..."];
        EvPrint [VStr "[PersonaPlex] Server running at ";
                 VStr ("wss://" ++ get_public_ip cfg ++ ":" ++ get_tcp_port cfg)]])%list,
      before.
    split; [exact Hr|]. split; [|split; [|exact C]].
    + rewrite Ta, T, <- app_assoc. reflexivity.
    + rewrite progress_updates_app, Ca. reflexivity.
  - destruct (handler script cfg fuel job st) as [v s|e s|s]; simpl.
    + left. apply H.
    + destruct H as [H|(sid & before & Hr & T & C)]; [left; exact H|].
      right. exists sid, [], before. auto.
    + destruct H.
Qed.

(** ** A healthy server *)

(** X10.  While the child stays alive and the port accepts, the loop
    leaves the server alone: [n] rounds launch nothing, send no
    [terminate] and no [kill], keep the same handle in the global, and
    take at least five seconds each. *)
Theorem healthy_server_is_left_alone script cfg n st h :
  healthy script ->
  server_process st = Some h ->
  exit_status (procs st) h = None ->
  exists st',
    monitor script cfg n st = Out st' /\
    server_process st' = Some h /\
    launches (trace st') = launches (trace st) /\
    signals (trace st') = signals (trace st) /\
    now st + 5000 * Z.of_nat n <= now st'.
Proof.
  intros Hh.
  assert (Hq : forall i, r_exits (script i) = []) by (intros i; apply (Hh i)).
  revert st. induction n as [|n IH]; intros st Hsp Hex.
  - exists st. cbn [monitor]. rewrite Hsp. repeat split; auto. lia.
  - assert (Hex1 : exit_status (procs (step script 0 st)) h = None).
    { destruct (env_le_step script 0 st) as (_ & _ & _ & _ & P); [lia|].
      rewrite P; assumption. }
    cbn [monitor]. rewrite Hsp.
    rewrite (bind_Ret _ _ _ _ _ (poll_eq script h st)), Hex1.
    unfold bind at 1. unfold time_sleep. fold (slept script 5 (polled script h st)).
    rewrite (bind_Ret _ _ _ _ _
               (wait_for_server_accepted script "localhost" (personaplex_port cfg) 5
                  (slept script 5 (polled script h st)) eq_refl
                  (conj (proj1 (proj2 (Hh _)) KConnect) (proj2 (proj2 (Hh _)))))).
    unfold bind at 1. unfold ret.
    set (s := record (EvConnect "localhost" (personaplex_port cfg) (Returned 0))
                (step script 0 (slept script 5 (polled script h st)))).
    assert (LE : env_le script st s).
    { unfold s. apply env_le_record.
      apply env_le_trans with (slept script 5 (polled script h st));
        [|apply env_le_step; lia].
      apply env_le_trans with (polled script h st);
        [apply env_le_polled|apply env_le_slept; lia]. }
    destruct (IH s) as (st' & Em & Sp & L & Sg & T).
    + exact Hsp.
    + destruct LE as (_ & _ & _ & _ & P). rewrite (P Hq). exact Hex.
    + exists st'. split; [exact Em|]. split; [exact Sp|].
      assert (Ts : trace s =
                   EvConnect "localhost" (personaplex_port cfg) (Returned 0) ::
                   EvSleep 5 :: EvPoll h None :: trace st).
      { unfold s, slept. cbn [trace record step]. rewrite trace_polled, Hex1.
        reflexivity. }
      assert (Ns : now st + 5000 <= now s).
      { unfold s, slept, polled, poll. cbn [now record step state_of]. lia. }
      rewrite L, Sg, Ts. cbn [launches signals].
      split; [reflexivity|]. split; [reflexivity|]. lia.
Qed.

Lemma healthy_server_is_left_alone_witness :
  exists st',
    monitor always_accepting default_config 3 one_child = Out st' /\
    server_process st' = Some 0%nat /\
    launches (trace st') = launches (trace one_child) /\
    signals (trace st') = signals (trace one_child) /\
    now one_child + 5000 * Z.of_nat 3 <= now st'.
Proof.
  apply (healthy_server_is_left_alone always_accepting default_config 3 one_child 0).
  - intros i. repeat split.
  - reflexivity.
  - reflexivity.
Defined.

(** ** The escalation of the [finally] block *)

(** X11.  When [terminate], [wait] and [kill] raise nothing of their own,
    a child that is alive and exits neither on [terminate] nor during the
    ten seconds of [wait] is killed: the block polls, prints, sends
    [terminate], waits, sends [kill], in this order, and takes at least
    ten seconds. *)
Theorem unresponsive_child_is_killed script st h :
  signals_delivered script ->
  (forall i, r_exits (script i) = []) ->
  server_process st = Some h ->
  exit_status (procs st) h = None ->
  exists st',
    cleanup script st = Ret tt st' /\
    trace st' =
      EvKill h :: EvWait h 10 None :: EvTerminate h ::
      EvPrint [VStr "[PersonaPlex] Shutting down server..."] ::
      EvPoll h None :: trace st /\
    now st + 10000 <= now st'.
Proof.
  intros Hsig Hq Hsp Hex.
  assert (Hex1 : exit_status (procs (step script 0 st)) h = None).
  { destruct (env_le_step script 0 st) as (_ & _ & _ & _ & P); [lia|].
    rewrite P; assumption. }
  unfold cleanup, bind, get_server_process. rewrite Hsp, poll_eq, Hex1.
  unfold print, terminate, answer.
  destruct (Hsig (calls (record (EvPrint [VStr "[PersonaPlex] Shutting down server..."])
                          (polled script h st)))) as (T & _ & _).
  rewrite T. clear T.
  set (st2 := record (EvTerminate h) (step script 0 _)).
  assert (LE : env_le script st st2).
  { unfold st2. apply env_le_record.
    apply env_le_trans with (polled script h st); [apply env_le_polled|].
    apply (env_le_step script 0
             (record (EvPrint [VStr "[PersonaPlex] Shutting down server..."])
                (polled script h st))). lia. }
  assert (Hex2 : exit_status (procs (step script 0 st2)) h = None).
  { destruct (env_le_step script 0 st2) as (_ & _ & _ & _ & P); [lia|].
    destruct LE as (_ & _ & _ & _ & P'). rewrite P, P'; assumption. }
  unfold wait, answer.
  destruct (Hsig (calls st2)) as (_ & _ & W). rewrite W, Hex2. clear W.
  cbn [is_TimeoutExpired]. unfold kill, answer.
  match goal with
  | |- context [r_raise (script (calls ?s)) KKill] =>
      destruct (Hsig (calls s)) as (_ & K & _); rewrite K; clear K
  end.
  eexists. split; [reflexivity|]. split.
  - cbn [trace record step]. unfold st2. cbn [trace record step].
    rewrite trace_polled, Hex1. reflexivity.
  - destruct LE as (_ & N & _). cbn [now record step]. lia.
Qed.

Lemma unresponsive_child_is_killed_witness :
  exists st',
    cleanup always_refusing one_child = Ret tt st' /\
    trace st' =
      EvKill 0 :: EvWait 0 10 None :: EvTerminate 0 ::
      EvPrint [VStr "[PersonaPlex] Shutting down server..."] ::
      EvPoll 0 None :: trace one_child /\
    now one_child + 10000 <= now st'.
Proof.
  apply (unresponsive_child_is_killed always_refusing one_child 0).
  - intros i. repeat split.
  - intros i. reflexivity.
  - reflexivity.
  - reflexivity.
Defined.

(** X12.  A child that is alive at the poll and has exited by the end of
    the [wait] is not killed: the block polls, prints, sends [terminate],
    waits, and stops there; [returncode] then holds the exit status the
    [wait] returned. *)
Theorem child_that_exits_is_not_killed script st h c :
  signals_delivered script ->
  server_process st = Some h ->
  exit_status (procs (step script 0 st)) h = None ->
  exit_status
    (procs (step script 0
              (terminated script h
                 (printed [VStr "[PersonaPlex] Shutting down server..."]
                    (polled script h st))))) h = Some c ->
  exists st',
    cleanup script st = Ret tt st' /\
    trace st' =
      EvWait h 10 (Some c) :: EvTerminate h ::
      EvPrint [VStr "[PersonaPlex] Shutting down server..."] ::
      EvPoll h None :: trace st /\
    get_returncode h st' = Ret (Some c) st'.
Proof.
  intros Hsig Hsp Hex1 Hex2.
  unfold cleanup, bind, get_server_process. rewrite Hsp, poll_eq, Hex1.
  unfold print, terminate, answer.
  destruct (Hsig (calls (record (EvPrint [VStr "[PersonaPlex] Shutting down server..."])
                          (polled script h st)))) as (T & _ & _).
  rewrite T. clear T.
  fold (printed [VStr "[PersonaPlex] Shutting down server..."] (polled script h st)).
  fold (terminated script h
          (printed [VStr "[PersonaPlex] Shutting down server..."] (polled script h st))).
  set (st2 := terminated script h _) in *.
  unfold wait, answer.
  destruct (Hsig (calls st2)) as (_ & _ & W). rewrite W, Hex2. clear W.
  eexists. split; [reflexivity|]. split.
  - cbn [trace record step]. unfold st2, terminated, printed.
    cbn [trace record step]. rewrite trace_polled, Hex1. reflexivity.
  - unfold get_returncode. f_equal. cbn [procs record].
    rewrite nth_error_update_nth, Nat.eqb_refl.
    unfold exit_status in Hex2.
    destruct (nth_error (procs (step script 0 st2)) h) as [q|]; [|discriminate].
    reflexivity.
Qed.

Lemma child_that_exits_is_not_killed_witness :
  exists st',
    cleanup (fun i => if Nat.eqb i 2 then exiting 0 (-15) accepting else accepting)
      one_child = Ret tt st' /\
    trace st' =
      EvWait 0 10 (Some (-15)) :: EvTerminate 0 ::
      EvPrint [VStr "[PersonaPlex] Shutting down server..."] ::
      EvPoll 0 None :: trace one_child /\
    get_returncode 0 st' = Ret (Some (-15)) st'.
Proof.
  apply (child_that_exits_is_not_killed
           (fun i => if Nat.eqb i 2 then exiting 0 (-15) accepting else accepting)
           one_child 0 (-15)).
  - intros i. destruct (Nat.eqb i 2); repeat split.
  - reflexivity.
  - reflexivity.
  - reflexivity.
Defined.

(** ** One handle per session *)

(** X13.  Whatever state the worker is in when the handler is called,
    and however the run ends or wherever it stands, the events the run
    has added to the trace are [owned_from] the process table it found:
    every [poll], [terminate], [wait] and [kill] of the session went to
    the handle the session launched last, so a handle is never touched
    again once its replacement exists, and a handle left by an earlier
    session is never touched at all; every launch gave a fresh handle; a
    replacement was launched only directly after [terminate] had been
    called on the handle it replaces; and once the session has launched a
    child the global holds the handle launched last. *)
Theorem session_keeps_single_ownership script cfg fuel job st :
  session_owner st (state_of (handler script cfg fuel job st)).
Proof.
  assert (NL0 : not_launched st st).
  { exists []. split; [|auto]. split; [reflexivity|]. split; [exact I|simpl; lia]. }
  remember (handler script cfg fuel job st) as r eqn:Hh.
  unfold handler in Hh.
  destruct (read_session_id_cases job) as [[sid Hr]|[e Hr]].
  2:{ rewrite (bind_Exc _ _ _ _ _ (Hr st)) in Hh. subst r. left. exact NL0. }
  rewrite (bind_Ret _ _ _ _ _ (Hr st)) in Hh.
  unfold bind at 1 in Hh. unfold print at 1 in Hh.
  set (st1 := record (EvPrint _) st) in Hh.
  assert (NL1 : not_launched st st1).
  { apply (not_launched_quiet st (EvPrint [VStr "[PersonaPlex] Starting server for session: "; sid]) st);
      [exact I|reflexivity|reflexivity|reflexivity|exact NL0]. }
  destruct (not_launched_start script cfg st st1 NL1) as [SO Ow].
  pose proof (start_outcome script cfg st1) as Ho.
  destruct (start_personaplex_server script cfg st1) as [h s|e s|s];
    [| |destruct Ho].
  2:{ destruct (is_Exception e); subst r; exact SO. }
  clear SO.
  rewrite (bind_Ret _ _ _ _ _ (set_server_process_same (Some h) s Ho)) in Hh.
  unfold bind at 1 in Hh. unfold print at 1 in Hh.
  set (st2 := record (EvPrint _) s) in Hh.
  assert (Ow2 : owning st st2) by (apply owning_record_quiet; [exact I|exact Ow]).
  pose proof (wait_for_server_triple script (owning st)
                (owning_record_quiet st) (owning_step script st)
                "localhost" (personaplex_port cfg) 120 (Some h) st2
                (conj Ow2 Ho)) as W.
  unfold bind at 1 in Hh.
  destruct (wait_for_server script "localhost" (personaplex_port cfg) 120 st2)
    as [[|] s3|e s3|s3].
  - (* ready: the progress update, then lines 154-189 *)
    destruct W as [Ow3 Sp3]. cbn [negb] in Hh.
    unfold bind at 1 in Hh. unfold print at 1 in Hh.
    unfold bind at 1 in Hh. unfold progress_update, answer in Hh.
    set (s4 := record (EvProgress _) (step script 0 _)) in Hh.
    assert (Ow4 : owning st s4).
    { unfold s4. apply owning_record_quiet; [exact I|].
      apply owning_step. apply owning_record_quiet; [exact I|exact Ow3]. }
    destruct (r_raise _ KProgress) as [e|].
    + subst r. right. exact Ow4.
    + unfold bind at 1 in Hh. unfold bind at 1 in Hh. unfold print in Hh.
      set (st_m := record (EvPrint _) (record (EvPrint _) s4)) in Hh.
      assert (Owm : owning st st_m).
      { unfold st_m. apply owning_record_quiet; [exact I|].
        apply owning_record_quiet; [exact I|exact Ow4]. }
      pose proof (monitoring_triple script cfg (owning st)
                    (owning_record_quiet st) (owning_step script st)
                    (owning_polled script st) (owning_terminate script st)
                    (owning_kill script st) (owning_wait script st)
                    (owning_relaunch script cfg st)
                    fuel sid st_m Owm) as Mt.
      rewrite <- Hh in Mt. right.
      destruct r as [v s5|e s5|s5]; simpl; [apply Mt|apply Mt|exact Mt].
  - (* not ready in time: terminate and return *)
    destruct W as [Ow3 Sp3]. cbn [negb] in Hh.
    unfold bind at 1 in Hh. unfold bind at 1 in Hh.
    unfold get_server_process in Hh. rewrite Sp3 in Hh.
    unfold bind, terminate, answer, ret in Hh.
    pose proof (owning_terminate script st h s3 Sp3 Ow3) as Ow4.
    destruct (r_raise _ KTerminate); subst r; right; exact Ow4.
  - subst r. right. apply W.
  - subst r. right. apply W.
Qed.
